(** * libnmstate.clib_wrapper: the Python gateway to the nmstate engine

    A shallow embedding of [rust/src/python/libnmstate/clib_wrapper.py].

    Every wrapper function makes one call into [libnmstate.so.2], copies the
    values of the [c_char_p] out-parameters, bridges the engine's log batch to
    Python's [logging], releases the engine-owned buffers with
    [nmstate_cstring_free] and finally returns the decoded result or raises.

    The embedding keeps that order.  A computation yields the trace of the
    observable events it issued (engine calls, log-bridge entries, logging
    calls, releases) together with either a returned value or the raised
    exception; a raised exception cuts the rest of the function short, as in
    Python. *)

From Stdlib Require Import ZArith NArith Bool List String Ascii Lia.
Import ListNotations.

Local Open Scope list_scope.
Local Open Scope string_scope.

(** ** Bytes and text *)

(** A Python [bytes] object: a sequence of 8-bit characters. *)
Definition bytes := string.

(** A Python [str] is kept as its UTF-8 encoding.  Encoding is injective and
    commutes with concatenation, so [==] on [str] is equality of the
    encodings and an f-string joins the encodings of its parts. *)
Definition str := string.

Definition byte_in (lo hi : N) (c : ascii) : bool :=
  ((lo <=? N_of_ascii c) && (N_of_ascii c <=? hi))%N.

Definition is_cont (c : ascii) : bool := byte_in 0x80 0xBF c.

(** The second byte of a three-byte sequence: [E0] excludes overlong forms,
    [ED] excludes the surrogates. *)
Definition second_of_3 (c0 c1 : ascii) : bool :=
  if byte_in 0xE0 0xE0 c0 then byte_in 0xA0 0xBF c1
  else if byte_in 0xED 0xED c0 then byte_in 0x80 0x9F c1
  else is_cont c1.

(** The second byte of a four-byte sequence: [F0] excludes overlong forms,
    [F4] stops at U+10FFFF. *)
Definition second_of_4 (c0 c1 : ascii) : bool :=
  if byte_in 0xF0 0xF0 c0 then byte_in 0x90 0xBF c1
  else if byte_in 0xF4 0xF4 c0 then byte_in 0x80 0x8F c1
  else is_cont c1.

(** Whether [b.decode("utf-8")] succeeds (strict error handling). *)
Fixpoint utf8_valid (b : bytes) : bool :=
  match b with
  | EmptyString => true
  | String c0 r =>
      if byte_in 0x00 0x7F c0 then utf8_valid r
      else if byte_in 0xC2 0xDF c0 then
        match r with
        | String c1 r1 => is_cont c1 && utf8_valid r1
        | _ => false
        end
      else if byte_in 0xE0 0xEF c0 then
        match r with
        | String c1 (String c2 r2) =>
            second_of_3 c0 c1 && is_cont c2 && utf8_valid r2
        | _ => false
        end
      else if byte_in 0xF0 0xF4 c0 then
        match r with
        | String c1 (String c2 (String c3 r3)) =>
            second_of_4 c0 c1 && is_cont c2 && is_cont c3 && utf8_valid r3
        | _ => false
        end
      else false
  end.

(** The characters of a [str], as [for ch in s] yields them: every byte that
    is not a continuation byte starts a new character. *)
Fixpoint split_chars (s : str) : str * list str :=
  match s with
  | EmptyString => (EmptyString, [])
  | String c r =>
      let (k, cs) := split_chars r in
      if is_cont c then (String c k, cs) else (EmptyString, String c k :: cs)
  end.

Definition str_chars (s : str) : list str := snd (split_chars s).

(** *** [repr] of a bytes object, as an f-string renders it *)

Definition squote : ascii := "039"%char.
Definition dquote : ascii := "034"%char.
Definition backslash : ascii := "092"%char.

Fixpoint contains (q : ascii) (b : bytes) : bool :=
  match b with
  | EmptyString => false
  | String c r => Ascii.eqb c q || contains q r
  end.

Definition hexdigit (n : N) : ascii :=
  match String.get (N.to_nat n) "0123456789abcdef" with
  | Some c => c
  | None => "0"%char
  end.

Fixpoint repr_body (quote : ascii) (b : bytes) : str :=
  match b with
  | EmptyString => EmptyString
  | String c r =>
      let rest := repr_body quote r in
      if Ascii.eqb c quote || Ascii.eqb c backslash then
        String backslash (String c rest)
      else if Ascii.eqb c "009"%char then String backslash (String "t"%char rest)
      else if Ascii.eqb c "010"%char then String backslash (String "n"%char rest)
      else if Ascii.eqb c "013"%char then String backslash (String "r"%char rest)
      else if (N_of_ascii c <? 0x20)%N || (0x7F <=? N_of_ascii c)%N then
        String backslash
          (String "x"%char
             (String (hexdigit (N.shiftr (N.land (N_of_ascii c) 0xF0) 4))
                (String (hexdigit (N.land (N_of_ascii c) 0x0F)) rest)))
      else String c rest
  end.

Definition bytes_repr (b : bytes) : str :=
  let quote :=
    if contains squote b && negb (contains dquote b) then dquote else squote in
  String "b"%char (String quote (repr_body quote b ++ String quote EmptyString)).

(** [f"{v}"] for the value of a [c_char_p]: [None] for a NULL pointer. *)
Definition format_bytes (v : option bytes) : str :=
  match v with
  | None => "None"
  | Some b => bytes_repr b
  end.

(** ** JSON values, exceptions and events *)

(** What [json.loads] builds: [None], [bool], [int], [float], [str], [list]
    and [dict].  A float is carried as its IEEE-754 bit pattern; a [dict]
    keeps its items in insertion order, with distinct keys. *)
#[local] Set Warnings "-register-all".
Inductive json : Type :=
| JNull
| JBool (b : bool)
| JInt (n : Z)
| JFloat (bits : Z)
| JStr (s : str)
| JList (items : list json)
| JDict (items : list (str * json)).

(** The exceptions a wrapper call can end with: the classes imported from
    [libnmstate.error], each built from its message, and the built-in
    exceptions the wrapper's own statements can raise. *)
Inductive exn : Type :=
| NmstateError (msg : str)
| NmstateVerificationError (msg : str)
| NmstateValueError (msg : str)
| NmstateInternalError (msg : str)
| NmstatePluginError (msg : str)
| NmstateNotImplementedError (msg : str)
| NmstateKernelIntegerRoundedError (msg : str)
| NmstateNotSupportedError (msg : str)
| NmstateDependencyError (msg : str)
| NmstatePermissionError (msg : str)
| AttributeError
| UnicodeDecodeError
| TypeError
| KeyError (key : str).

(** The [c_char_p] variables the wrapper functions declare. *)
Inductive buffer : Type :=
| c_err_msg | c_err_kind | c_state | c_log
| c_configs | c_diff_state | c_formated_state.

(** The entry points of [libnmstate.so.2], with the arguments passed by
    value.  The [byref] arguments are listed by [output_buffers]. *)
Inductive lib_call : Type :=
| nmstate_net_state_retrieve (flags : Z)
| nmstate_net_state_apply (flags : Z) (state : bytes) (rollback_timeout : Z)
| nmstate_checkpoint_commit (checkpoint : option bytes)
| nmstate_checkpoint_rollback (checkpoint : option bytes)
| nmstate_generate_configurations (state : bytes)
| nmstate_generate_differences (new_state old_state : bytes)
| nmstate_net_state_format (state : bytes)
| nmstate_net_state_from_policy (policy cur_state : bytes).

(** The [c_char_p] objects handed to the engine with [byref], in argument
    order: the buffers the engine may populate. *)
Definition output_buffers (c : lib_call) : list buffer :=
  match c with
  | nmstate_net_state_retrieve _ => [c_state; c_log; c_err_kind; c_err_msg]
  | nmstate_net_state_apply _ _ _ => [c_log; c_err_kind; c_err_msg]
  | nmstate_checkpoint_commit _ => [c_log; c_err_kind; c_err_msg]
  | nmstate_checkpoint_rollback _ => [c_log; c_err_kind; c_err_msg]
  | nmstate_generate_configurations _ =>
      [c_configs; c_log; c_err_kind; c_err_msg]
  | nmstate_generate_differences _ _ => [c_diff_state; c_err_kind; c_err_msg]
  | nmstate_net_state_format _ => [c_formated_state; c_err_kind; c_err_msg]
  | nmstate_net_state_from_policy _ _ => [c_state; c_log; c_err_kind; c_err_msg]
  end.

(** What the engine hands back: the [c_int] status and, for every buffer,
    the [.value] read after the call ([None] for a NULL pointer). *)
Record lib_reply : Type := mk_reply {
  rc : Z;
  value : buffer -> option bytes
}.

Inductive level : Type := ERROR | WARNING | INFO | DEBUG.

Inductive event : Type :=
| Call (c : lib_call)             (* lib.nmstate_...(...) *)
| Bridge (logs : option bytes)    (* entry into parse_log(logs) *)
| Logging (lv : level) (msg : str) (* logging.error(msg), ... *)
| Free (b : buffer).              (* lib.nmstate_cstring_free(b) *)

(** ** Computations: a trace and an outcome *)

Inductive outcome (A : Type) : Type :=
| Return (a : A)
| Raise (e : exn).
Arguments Return {A} a.
Arguments Raise {A} e.

Definition M (A : Type) : Type := (list event * outcome A)%type.

Definition ret {A} (a : A) : M A := ([], Return a).
Definition raise {A} (e : exn) : M A := ([], Raise e).
Definition emit (ev : event) : M unit := ([ev], Return tt).

Definition trace {A} (m : M A) : list event := fst m.
Definition result {A} (m : M A) : outcome A := snd m.

(** Sequencing: the events of [m], then those of the continuation when [m]
    returned; an exception raised by [m] ends the computation. *)
Definition bind {A B} (m : M A) (f : A -> M B) : M B :=
  match result m with
  | Return a => ((trace m ++ trace (f a))%list, result (f a))
  | Raise e => (trace m, Raise e)
  end.

Notation "x <- m ;; k" := (bind m (fun x => k))
  (at level 61, m at next level, right associativity).
Notation "m ;; k" := (bind m (fun _ => k))
  (at level 61, right associativity).

(** ** Constants of the wrapper *)

Definition NMSTATE_FLAG_NONE : Z := 0.
Definition NMSTATE_FLAG_KERNEL_ONLY : Z := Z.shiftl 1 1.
Definition NMSTATE_FLAG_NO_VERIFY : Z := Z.shiftl 1 2.
Definition NMSTATE_FLAG_INCLUDE_STATUS_DATA : Z := Z.shiftl 1 3.
Definition NMSTATE_FLAG_INCLUDE_SECRETS : Z := Z.shiftl 1 4.
Definition NMSTATE_FLAG_NO_COMMIT : Z := Z.shiftl 1 5.
Definition NMSTATE_FLAG_MEMORY_ONLY : Z := Z.shiftl 1 6.
Definition NMSTATE_FLAG_RUNNING_CONFIG_ONLY : Z := Z.shiftl 1 7.
Definition NMSTATE_PASS : Z := 0.

(** ** The wrapper functions *)

(** [v.decode("utf-8")] on the value of a [c_char_p]: [None] has no
    [decode] attribute, and a byte sequence that is not UTF-8 is refused. *)
Definition decode (v : option bytes) : M str :=
  match v with
  | None => raise AttributeError
  | Some b => if utf8_valid b then ret b else raise UnicodeDecodeError
  end.

Definition map_error (err_kind err_msg : option bytes) : M exn :=
  err_msg <- decode err_msg ;;
  err_kind <- decode err_kind ;;
  if err_kind =? "VerificationError" then
    ret (NmstateVerificationError err_msg)
  else if err_kind =? "InvalidArgument" then
    ret (NmstateValueError err_msg)
  else if err_kind =? "Bug" then
    ret (NmstateInternalError err_msg)
  else if err_kind =? "PluginFailure" then
    ret (NmstatePluginError err_msg)
  else if err_kind =? "NotImplementedError" then
    ret (NmstateNotImplementedError err_msg)
  else if err_kind =? "KernelIntegerRoundedError" then
    ret (NmstateKernelIntegerRoundedError err_msg)
  else if err_kind =? "NotSupportedError" then
    ret (NmstateNotSupportedError err_msg)
  else if err_kind =? "DependencyError" then
    ret (NmstateDependencyError err_msg)
  else if err_kind =? "PermissionError" then
    ret (NmstatePermissionError err_msg)
  else
    ret (NmstateError (err_kind ++ ": " ++ err_msg)).

(** [raise map_error(err_kind, err_msg)] *)
Definition raise_map_error {A} (err_kind err_msg : option bytes) : M A :=
  e <- map_error err_kind err_msg ;;
  raise e.

Fixpoint lookup (key : str) (items : list (str * json)) : option json :=
  match items with
  | [] => None
  | (k, v) :: rest => if k =? key then Some v else lookup key rest
  end.

(** [v[key]] with a [str] key: only a [dict] can be subscripted by a
    string. *)
Definition subscript (v : json) (key : str) : M json :=
  match v with
  | JDict items =>
      match lookup key items with
      | Some x => ret x
      | None => raise (KeyError key)
      end
  | _ => raise TypeError
  end.

(** The items [for x in v] runs over: the elements of a list, the keys of a
    dict, the characters of a string; nothing else is iterable. *)
Definition iterate (v : json) : M (list json) :=
  match v with
  | JList items => ret items
  | JDict items => ret (map (fun kv => JStr (fst kv)) items)
  | JStr s => ret (map JStr (str_chars s))
  | _ => raise TypeError
  end.

(** [level == "ERROR"]: a value that is not a [str] differs from every
    string. *)
Definition equals (v : json) (s : str) : bool :=
  match v with
  | JStr t => t =? s
  | _ => false
  end.

Definition free (b : buffer) : M unit := emit (Free b).

Section Wrapper.

(** The engine behind [lib]: one reply for each call. *)
Variable lib : lib_call -> lib_reply.

(** [json.dumps] and [yaml.dump] on a state document. *)
Variable json_dumps : json -> str.
Variable yaml_dump : json -> str.

(** [json.loads]: [None] when it raises. *)
Variable json_loads : str -> option json.

(** [str(v)] for a decoded value that is not itself a [str]. *)
Variable py_str : json -> str.

Definition call (c : lib_call) : M lib_reply :=
  emit (Call c) ;; ret (lib c).

(** [f"{v}"] *)
Definition format (v : json) : str :=
  match v with
  | JStr s => s
  | _ => py_str v
  end.

(** The body of the [for] loop of [parse_log], over the remaining
    entries. *)
Fixpoint parse_log_entries (log_entries : list json) : M unit :=
  match log_entries with
  | [] => ret tt
  | log_entry :: rest =>
      time <- subscript log_entry "time" ;;
      file <- subscript log_entry "file" ;;
      text <- subscript log_entry "msg" ;;
      let msg := format time ++ ":" ++ format file ++ ": " ++ format text in
      level <- subscript log_entry "level" ;;
      (if equals level "ERROR" then emit (Logging ERROR msg)
       else if equals level "WARN" then emit (Logging WARNING msg)
       else if equals level "INFO" then emit (Logging INFO msg)
       else emit (Logging DEBUG msg)) ;;
      parse_log_entries rest
  end.

(** [json.loads(logs.decode("utf-8"))] under [try ... except Exception:
    pass], with [log_entries = []] set beforehand. *)
Definition load_log_entries (logs : bytes) : json :=
  if utf8_valid logs then
    match json_loads logs with
    | Some v => v
    | None => JList []
    end
  else JList [].

Definition parse_log (logs : option bytes) : M unit :=
  emit (Bridge logs) ;;
  match logs with
  | None => ret tt
  | Some b =>
      log_entries <- iterate (load_log_entries b) ;;
      parse_log_entries log_entries
  end.

(** What a wrapper function returns: [None] or a [str]. *)
Definition retval : Type := option str.

Definition retrieve_net_state_json
    (kernel_only include_status_data include_secrets
     running_config_only : bool) : M retval :=
  let flags := NMSTATE_FLAG_NONE in
  let flags :=
    if kernel_only then Z.lor flags NMSTATE_FLAG_KERNEL_ONLY else flags in
  let flags :=
    if include_status_data
    then Z.lor flags NMSTATE_FLAG_INCLUDE_STATUS_DATA else flags in
  let flags :=
    if include_secrets
    then Z.lor flags NMSTATE_FLAG_INCLUDE_SECRETS else flags in
  let flags :=
    if running_config_only
    then Z.lor flags NMSTATE_FLAG_RUNNING_CONFIG_ONLY else flags in
  r <- call (nmstate_net_state_retrieve flags) ;;
  let state := value r c_state in
  let err_msg := value r c_err_msg in
  let err_kind := value r c_err_kind in
  parse_log (value r c_log) ;;
  free c_log ;;
  free c_state ;;
  free c_err_kind ;;
  free c_err_msg ;;
  if negb (rc r =? NMSTATE_PASS)%Z then
    raise (NmstateError (format_bytes err_kind ++ ": " ++ format_bytes err_msg))
  else
    s <- decode state ;;
    ret (Some s).

(** [rollback_timeout] is handed to the engine as it is.  The call has no
    [argtypes]: [ctypes] converts an [int] that fits a C [long] or
    [unsigned long] and cuts it to a C [int], and refuses any other value
    with [ArgumentError] before the engine is entered; that refusal is not
    modelled, so this definition describes the calls whose
    [rollback_timeout] [ctypes] accepts. *)
Definition apply_net_state
    (state : json) (kernel_only verify_change save_to_disk commit : bool)
    (rollback_timeout : Z) : M retval :=
  let flags := NMSTATE_FLAG_NONE in
  let flags :=
    if kernel_only then Z.lor flags NMSTATE_FLAG_KERNEL_ONLY else flags in
  let flags :=
    if negb verify_change
    then Z.lor flags NMSTATE_FLAG_NO_VERIFY else flags in
  let flags :=
    if negb commit then Z.lor flags NMSTATE_FLAG_NO_COMMIT else flags in
  let flags :=
    if negb save_to_disk
    then Z.lor flags NMSTATE_FLAG_MEMORY_ONLY else flags in
  r <- call (nmstate_net_state_apply flags (json_dumps state)
               rollback_timeout) ;;
  let err_msg := value r c_err_msg in
  let err_kind := value r c_err_kind in
  parse_log (value r c_log) ;;
  free c_log ;;
  free c_err_kind ;;
  free c_err_msg ;;
  if negb (rc r =? NMSTATE_PASS)%Z then raise_map_error err_kind err_msg
  else ret None.

Definition commit_checkpoint (checkpoint : option bytes) : M retval :=
  r <- call (nmstate_checkpoint_commit checkpoint) ;;
  let err_msg := value r c_err_msg in
  let err_kind := value r c_err_kind in
  parse_log (value r c_log) ;;
  free c_log ;;
  free c_err_kind ;;
  free c_err_msg ;;
  if negb (rc r =? NMSTATE_PASS)%Z then raise_map_error err_kind err_msg
  else ret None.

Definition rollback_checkpoint (checkpoint : option bytes) : M retval :=
  r <- call (nmstate_checkpoint_rollback checkpoint) ;;
  let err_msg := value r c_err_msg in
  let err_kind := value r c_err_kind in
  parse_log (value r c_log) ;;
  free c_log ;;
  free c_err_kind ;;
  free c_err_msg ;;
  if negb (rc r =? NMSTATE_PASS)%Z then raise_map_error err_kind err_msg
  else ret None.

Definition gen_conf (state : json) : M retval :=
  r <- call (nmstate_generate_configurations (json_dumps state)) ;;
  let configs := value r c_configs in
  let err_msg := value r c_err_msg in
  let err_kind := value r c_err_kind in
  parse_log (value r c_log) ;;
  free c_log ;;
  free c_err_kind ;;
  free c_err_msg ;;
  if negb (rc r =? NMSTATE_PASS)%Z then raise_map_error err_kind err_msg
  else
    s <- decode configs ;;
    ret (Some s).

Definition gen_diff (new_state old_state : json) : M retval :=
  r <- call (nmstate_generate_differences (json_dumps new_state)
               (json_dumps old_state)) ;;
  let diff_state := value r c_diff_state in
  let err_msg := value r c_err_msg in
  let err_kind := value r c_err_kind in
  free c_err_kind ;;
  free c_err_msg ;;
  if negb (rc r =? NMSTATE_PASS)%Z then raise_map_error err_kind err_msg
  else
    s <- decode diff_state ;;
    ret (Some s).

Definition net_state_serialize (state : json) (use_yaml : bool) : M retval :=
  let c_state := if use_yaml then yaml_dump state else json_dumps state in
  r <- call (nmstate_net_state_format c_state) ;;
  let formated_state := value r c_formated_state in
  let err_msg := value r c_err_msg in
  let err_kind := value r c_err_kind in
  free c_err_kind ;;
  free c_err_msg ;;
  if negb (rc r =? NMSTATE_PASS)%Z then raise_map_error err_kind err_msg
  else
    s <- decode formated_state ;;
    ret (Some s).

Definition net_state_from_policy (policy cur_state : json) : M retval :=
  r <- call (nmstate_net_state_from_policy (json_dumps policy)
               (json_dumps cur_state)) ;;
  let state := value r c_state in
  let err_msg := value r c_err_msg in
  let err_kind := value r c_err_kind in
  parse_log (value r c_log) ;;
  free c_log ;;
  free c_err_kind ;;
  free c_err_msg ;;
  if negb (rc r =? NMSTATE_PASS)%Z then raise_map_error err_kind err_msg
  else
    s <- decode state ;;
    ret (Some s).

End Wrapper.

(** ** The operations of the gateway, and what a trace shows *)

(** One constructor for each wrapper function, with its arguments. *)
Inductive operation : Type :=
| Retrieve (kernel_only include_status_data include_secrets
            running_config_only : bool)
| Apply (state : json) (kernel_only verify_change save_to_disk commit : bool)
        (rollback_timeout : Z)
| Commit (checkpoint : option bytes)
| Rollback (checkpoint : option bytes)
| GenConf (state : json)
| GenDiff (new_state old_state : json)
| Serialize (state : json) (use_yaml : bool)
| FromPolicy (policy cur_state : json).

Definition run (lib : lib_call -> lib_reply) (json_dumps yaml_dump : json -> str)
    (json_loads : str -> option json) (py_str : json -> str)
    (op : operation) : M retval :=
  match op with
  | Retrieve k s i r => retrieve_net_state_json lib json_loads py_str k s i r
  | Apply st k v d c t =>
      apply_net_state lib json_dumps json_loads py_str st k v d c t
  | Commit cp => commit_checkpoint lib json_loads py_str cp
  | Rollback cp => rollback_checkpoint lib json_loads py_str cp
  | GenConf st => gen_conf lib json_dumps json_loads py_str st
  | GenDiff n o => gen_diff lib json_dumps n o
  | Serialize st y => net_state_serialize lib json_dumps yaml_dump st y
  | FromPolicy p c => net_state_from_policy lib json_dumps json_loads py_str p c
  end.

(** The operations that pass a log buffer to the engine. *)
Definition bridges_logs (op : operation) : bool :=
  match op with
  | GenDiff _ _ | Serialize _ _ => false
  | _ => true
  end.

(** The buffer holding the primary result, for the operations that return
    text. *)
Definition primary (op : operation) : option buffer :=
  match op with
  | Retrieve _ _ _ _ => Some c_state
  | GenConf _ => Some c_configs
  | GenDiff _ _ => Some c_diff_state
  | Serialize _ _ => Some c_formated_state
  | FromPolicy _ _ => Some c_state
  | Apply _ _ _ _ _ _ | Commit _ | Rollback _ => None
  end.

Definition calls (t : list event) : list lib_call :=
  flat_map (fun ev => match ev with Call c => [c] | _ => [] end) t.

Definition frees (t : list event) : list buffer :=
  flat_map (fun ev => match ev with Free b => [b] | _ => [] end) t.

Definition bridged (t : list event) : list (option bytes) :=
  flat_map (fun ev => match ev with Bridge l => [l] | _ => [] end) t.

Definition logged (t : list event) : list (level * str) :=
  flat_map (fun ev => match ev with Logging lv m => [(lv, m)] | _ => [] end) t.

Definition flags_of (c : lib_call) : list Z :=
  match c with
  | nmstate_net_state_retrieve flags => [flags]
  | nmstate_net_state_apply flags _ _ => [flags]
  | _ => []
  end.

(** The flag words a trace sends to the engine. *)
Definition sent_flags (t : list event) : list Z := flat_map flags_of (calls t).

(** The bit a boolean option contributes to the flag word. *)
Definition bit (selected : bool) (flag : Z) : Z := if selected then flag else 0.

(** The bits retrieval can set, and the bits apply can set. *)
Definition retrieve_bits : Z :=
  Z.lor (Z.shiftl 1 1) (Z.lor (Z.shiftl 1 3) (Z.lor (Z.shiftl 1 4) (Z.shiftl 1 7))).

Definition apply_bits : Z :=
  Z.lor (Z.shiftl 1 1) (Z.lor (Z.shiftl 1 2) (Z.lor (Z.shiftl 1 5) (Z.shiftl 1 6))).

(** A log record as the engine writes it: a dict with the four fields. *)
Definition is_record (v : json) : bool :=
  match v with
  | JDict items =>
      match lookup "time" items, lookup "file" items,
            lookup "msg" items, lookup "level" items with
      | Some _, Some _, Some _, Some _ => true
      | _, _, _, _ => false
      end
  | _ => false
  end.

(** The errors of [libnmstate.error], as opposed to Python's built-in
    exceptions. *)
Definition is_nmstate_error (e : exn) : bool :=
  match e with
  | AttributeError | UnicodeDecodeError | TypeError | KeyError _ => false
  | _ => true
  end.

(** The kind strings of the error table. *)
Definition taxonomy_kinds : list str :=
  [ "VerificationError"; "InvalidArgument"; "Bug"; "PluginFailure";
    "NotImplementedError"; "KernelIntegerRoundedError"; "NotSupportedError";
    "DependencyError"; "PermissionError" ].

(** ** The gateway in one equation

    The eight wrapper functions follow one pattern.  The definitions below
    spell that pattern out from the spec's description of the gateway; they
    are compared with the wrapper functions in [run_eq]. *)

(** The call an operation makes, with the flag word written as the bitwise
    OR of the bits its options select. *)
Definition request (json_dumps yaml_dump : json -> str) (op : operation)
    : lib_call :=
  match op with
  | Retrieve k s i r =>
      nmstate_net_state_retrieve
        (Z.lor (bit k NMSTATE_FLAG_KERNEL_ONLY)
           (Z.lor (bit s NMSTATE_FLAG_INCLUDE_STATUS_DATA)
              (Z.lor (bit i NMSTATE_FLAG_INCLUDE_SECRETS)
                 (bit r NMSTATE_FLAG_RUNNING_CONFIG_ONLY))))
  | Apply st k v d c t =>
      nmstate_net_state_apply
        (Z.lor (bit k NMSTATE_FLAG_KERNEL_ONLY)
           (Z.lor (bit (negb v) NMSTATE_FLAG_NO_VERIFY)
              (Z.lor (bit (negb c) NMSTATE_FLAG_NO_COMMIT)
                 (bit (negb d) NMSTATE_FLAG_MEMORY_ONLY))))
        (json_dumps st) t
  | Commit cp => nmstate_checkpoint_commit cp
  | Rollback cp => nmstate_checkpoint_rollback cp
  | GenConf st => nmstate_generate_configurations (json_dumps st)
  | GenDiff n o => nmstate_generate_differences (json_dumps n) (json_dumps o)
  | Serialize st y =>
      nmstate_net_state_format (if y then yaml_dump st else json_dumps st)
  | FromPolicy p c =>
      nmstate_net_state_from_policy (json_dumps p) (json_dumps c)
  end.

(** The buffers an operation releases, in order. *)
Definition releases (op : operation) : list buffer :=
  match op with
  | Retrieve _ _ _ _ => [c_log; c_state; c_err_kind; c_err_msg]
  | GenDiff _ _ | Serialize _ _ => [c_err_kind; c_err_msg]
  | _ => [c_log; c_err_kind; c_err_msg]
  end.

(** How an operation ends once the logs are bridged and the buffers are
    released. *)
Definition finish (op : operation) (r : lib_reply) : outcome retval :=
  if negb (rc r =? NMSTATE_PASS)%Z then
    match op with
    | Retrieve _ _ _ _ =>
        Raise (NmstateError (format_bytes (value r c_err_kind) ++ ": "
                               ++ format_bytes (value r c_err_msg)))
    | _ => result (raise_map_error (value r c_err_kind) (value r c_err_msg))
    end
  else
    match primary op with
    | None => Return None
    | Some b => result (s <- decode (value r b) ;; ret (Some s))
    end.

(** The exception a NULL kind or message buffer leads to: the message is
    decoded first, so a message that is not UTF-8 is reported before the
    NULL kind is touched. *)
Definition null_buffer_exception (err_msg : option bytes) : exn :=
  match err_msg with
  | None => AttributeError
  | Some b => if utf8_valid b then AttributeError else UnicodeDecodeError
  end.


(** ** What the log bridge writes for a batch of records *)

(** The [logging] function the chain of comparisons of [parse_log] picks
    for a level. *)
Definition level_of (v : json) : level :=
  if equals v "ERROR" then ERROR
  else if equals v "WARN" then WARNING
  else if equals v "INFO" then INFO
  else DEBUG.

(** The line a record is logged as, when it has the four fields. *)
Definition record_line (py_str : json -> str) (v : json)
    : option (level * str) :=
  match v with
  | JDict items =>
      match lookup "time" items, lookup "file" items,
            lookup "msg" items, lookup "level" items with
      | Some time, Some file, Some text, Some lv =>
          Some (level_of lv,
                format py_str time ++ ":" ++ format py_str file ++ ": "
                  ++ format py_str text)
      | _, _, _, _ => None
      end
  | _ => None
  end.

Definition record_lines (py_str : json -> str) (entries : list json)
    : list (level * str) :=
  flat_map (fun v => match record_line py_str v with
                     | Some l => [l]
                     | None => []
                     end) entries.

(** The text an error of [libnmstate.error] was built from. *)
Definition message_of (e : exn) : str :=
  match e with
  | NmstateError msg | NmstateVerificationError msg | NmstateValueError msg
  | NmstateInternalError msg | NmstatePluginError msg
  | NmstateNotImplementedError msg | NmstateKernelIntegerRoundedError msg
  | NmstateNotSupportedError msg | NmstateDependencyError msg
  | NmstatePermissionError msg => msg
  | AttributeError | UnicodeDecodeError | TypeError | KeyError _ => EmptyString
  end.

(** A byte sequence of 7-bit characters. *)
Fixpoint is_ascii (s : string) : bool :=
  match s with
  | EmptyString => true
  | String c r => byte_in 0x00 0x7F c && is_ascii r
  end.

(** ** Sample runtime and engines for the worked examples *)

(** [json.loads] on the log texts used below. *)
Definition sample_json_loads (s : str) : option json :=
  if s =? "[]" then Some (JList [])
  else if s =? "[{}]" then Some (JList [JDict []])
  else if s =? "{}" then Some (JDict [])
  else if s =? "null" then Some JNull
  else if s =? "5" then Some (JInt 5)
  else None.

(** [json.dumps] and [yaml.dump] on the empty state document [{}], the only
    one used below. *)
Definition sample_json_dumps (v : json) : str := "{}".

Definition sample_yaml_dump (v : json) : str :=
  String "{" (String "}" (String "010"%char EmptyString)).

(** [str] on the scalars used below. *)
Definition sample_py_str (v : json) : str :=
  match v with
  | JBool true => "True"
  | JBool false => "False"
  | JInt 5 => "5"
  | _ => "None"
  end.

(** An engine that succeeds, with an empty log batch and [payload] as the
    primary result. *)
Definition engine_ok (payload : bytes) (c : lib_call) : lib_reply :=
  mk_reply 0 (fun b =>
    match b with
    | c_log => Some "[]"
    | c_err_kind | c_err_msg => None
    | _ => Some payload
    end).

(** An engine that refuses every call for lack of privilege. *)
Definition engine_denied (c : lib_call) : lib_reply :=
  mk_reply 1 (fun b =>
    match b with
    | c_log => Some "[]"
    | c_err_kind => Some "PermissionError"
    | c_err_msg => Some "Permission denied"
    | _ => None
    end).

(** An engine that reports success and leaves the result buffer NULL. *)
Definition engine_null_result (c : lib_call) : lib_reply :=
  mk_reply 0 (fun b =>
    match b with
    | c_log => Some "[]"
    | _ => None
    end).

(** An engine that succeeds and whose log batch holds one record without
    fields. *)
Definition engine_bare_record (c : lib_call) : lib_reply :=
  mk_reply 0 (fun b =>
    match b with
    | c_log => Some "[{}]"
    | c_err_kind | c_err_msg => None
    | _ => Some "{}"
    end).

(** An engine that fails with a NULL kind and a message that is not
    UTF-8. *)
Definition engine_null_kind (c : lib_call) : lib_reply :=
  mk_reply 1 (fun b =>
    match b with
    | c_log => Some "[]"
    | c_err_msg => Some (String "255"%char EmptyString)
    | _ => None
    end).

(** More sample engines: a failing call whose log batch is not UTF-8, and
    a failing call whose log batch holds two records. *)
Definition engine_garbled_log (c : lib_call) : lib_reply :=
  mk_reply 1 (fun b =>
    match b with
    | c_log => Some (String "255"%char EmptyString)
    | c_err_kind => Some "Bug"
    | c_err_msg => Some "state lost"
    | _ => None
    end).

Definition two_records : list json :=
  [JDict [("time", JStr "12:00:01"); ("file", JStr "nm/apply.rs");
          ("msg", JStr "retrying"); ("level", JStr "WARN")];
   JDict [("time", JStr "12:00:02"); ("file", JStr "nm/apply.rs");
          ("msg", JStr "giving up"); ("level", JStr "ERROR")]].

Definition quoted (s : string) : string :=
  String dquote (s ++ String dquote EmptyString).

Definition record_text (time file msg lv : string) : string :=
  "{" ++ quoted "time" ++ ":" ++ quoted time ++ ","
      ++ quoted "file" ++ ":" ++ quoted file ++ ","
      ++ quoted "msg" ++ ":" ++ quoted msg ++ ","
      ++ quoted "level" ++ ":" ++ quoted lv ++ "}".

(** The JSON text of [two_records]. *)
Definition two_records_text : bytes :=
  "[" ++ record_text "12:00:01" "nm/apply.rs" "retrying" "WARN" ++ ","
      ++ record_text "12:00:02" "nm/apply.rs" "giving up" "ERROR" ++ "]".

(** [json.loads] on [two_records_text]. *)
Definition records_json_loads (s : str) : option json :=
  if s =? two_records_text then Some (JList two_records) else None.

Definition engine_two_records (c : lib_call) : lib_reply :=
  mk_reply 1 (fun b =>
    match b with
    | c_log => Some two_records_text
    | c_err_kind => Some "VerificationError"
    | c_err_msg => Some "state differs"
    | _ => None
    end).

(** * The test fixture [gen_conf_apply]

    A shallow embedding of [tests/integration/testlib/genconf.py].  The
    fixture talks to the outside world only: [libnmstate], the file system,
    [exec_cmd] and [time.sleep].  Each such call is recorded in a history,
    and the environment answers it, knowing the history so far, with a value
    or with an exception. *)

Inductive env_call : Type :=
| libnmstate_generate_configurations (desire_state : json)
| libnmstate_apply (state : json) (verify_change : bool)
| open_w (file_path : str)                     (* open(file_path, "w") *)
| fd_write (file_path : str) (content : str)   (* fd.write(content) *)
| fd_close (file_path : str)                   (* leaving the with block *)
| os_chmod (file_path : str) (mode : Z)
| os_chown (file_path : str) (uid gid : Z)
| os_unlink (file_path : str)
| exec_cmd (cmd : list str) (check : bool)
| time_sleep (seconds : Z).

Inductive env_reply (X : Type) : Type :=
| Ok (v : json)
| Fail (x : X).
Arguments Ok {X} v.
Arguments Fail {X} x.

(** The exceptions of the fixture: those its own statements raise, and
    those handed up by the environment. *)
Inductive pyexn (X : Type) : Type :=
| Builtin (e : exn)
| IndexError
| KeyErrorInt (i : nat)
| Raised (x : X).
Arguments Builtin {X} e.
Arguments IndexError {X}.
Arguments KeyErrorInt {X} i.
Arguments Raised {X} x.

Inductive goutcome (X A : Type) : Type :=
| GReturn (a : A)
| GRaise (e : pyexn X).
Arguments GReturn {X A} a.
Arguments GRaise {X A} e.

(** The calls made so far, and the local list [file_paths] of the
    generator. *)
Record fstate : Type := mk_fstate {
  history : list env_call;
  file_paths : list str
}.

Definition G (X A : Type) : Type := fstate -> fstate * goutcome X A.

Definition gret {X A} (a : A) : G X A := fun st => (st, GReturn a).
Definition graise {X A} (e : pyexn X) : G X A := fun st => (st, GRaise e).

Definition gbind {X A B} (m : G X A) (f : A -> G X B) : G X B :=
  fun st =>
    match snd (m st) with
    | GReturn a => f a (fst (m st))
    | GRaise e => (fst (m st), GRaise e)
    end.

(** [try: m finally: c]: [c] runs whatever [m] did; an exception of [c]
    replaces the outcome of [m]. *)
Definition gfinally {X A} (m : G X A) (c : G X unit) : G X A :=
  fun st =>
    let st1 := fst (m st) in
    let st2 := fst (c st1) in
    match snd (c st1) with
    | GReturn _ => (st2, snd (m st))
    | GRaise e => (st2, GRaise e)
    end.

Declare Scope fixture_scope.
Delimit Scope fixture_scope with fixture.
Notation "x <- m ;; k" := (gbind m (fun x => k))
  (at level 61, m at next level, right associativity) : fixture_scope.
Notation "m ;; k" := (gbind m (fun _ => k))
  (at level 61, right associativity) : fixture_scope.

(** A statement of the wrapper's vocabulary that makes no call: subscript
    and iteration. *)
Definition lift {X A} (m : M A) : G X A :=
  match result m with
  | Return a => gret a
  | Raise e => graise (Builtin e)
  end.

(** [d.get(key, default)] *)
Definition dict_get {X} (d : json) (key : str) (default : json) : G X json :=
  match d with
  | JDict items =>
      gret (match lookup key items with
            | Some v => v
            | None => default
            end)
  | _ => graise (Builtin AttributeError)
  end.

(** [v[i]] with an integer index. *)
Definition index {X} (v : json) (i : nat) : G X json :=
  match v with
  | JList items =>
      match nth_error items i with
      | Some x => gret x
      | None => graise IndexError
      end
  | JStr s =>
      match nth_error (str_chars s) i with
      | Some c => gret (JStr c)
      | None => graise IndexError
      end
  | JDict _ => graise (KeyErrorInt i)
  | _ => graise (Builtin TypeError)
  end.

(** [d[key] = v] on the items of a dict: an existing key keeps its place. *)
Fixpoint dict_set (key : str) (v : json) (items : list (str * json))
    : list (str * json) :=
  match items with
  | [] => [(key, v)]
  | (k, w) :: rest =>
      if k =? key then (k, v) :: rest else (k, w) :: dict_set key v rest
  end.

(** A dict display [{k1: v1, k2: v2, ...}]. *)
Definition dict_literal (kvs : list (str * json)) : json :=
  JDict (fold_left (fun items kv => dict_set (fst kv) (snd kv) items) kvs []).

Fixpoint gmap {X A B} (f : A -> G X B) (l : list A) : G X (list B) :=
  match l with
  | [] => gret []
  | a :: rest =>
      gbind (f a) (fun b => gbind (gmap f rest) (fun bs => gret (b :: bs)))
  end.

Fixpoint gfor {X A} (l : list A) (body : A -> G X unit) : G X unit :=
  match l with
  | [] => gret tt
  | a :: rest => gbind (body a) (fun _ => gfor rest body)
  end.

Fixpoint gfold {X A S} (body : S -> A -> G X S) (s : S) (l : list A) : G X S :=
  match l with
  | [] => gret s
  | a :: rest => gbind (body s a) (fun s' => gfold body s' rest)
  end.

Definition NM_CONN_FOLDER : str := "/etc/NetworkManager/system-connections".

(** No call among [calls] is an [os.unlink]. *)
Definition unlinks_nothing (calls : list env_call) : Prop :=
  forall p, ~ In (os_unlink p) calls.

Section Fixture.

Local Open Scope fixture_scope.

(** The exceptions of the environment, and those among them that are
    instances of [Exception]. *)
Variable X : Type.
Variable is_Exception : X -> bool.

(** The environment: the answer to a call, given the calls before it. *)
Variable env : list env_call -> env_call -> env_reply X.

Variable py_str : json -> str.

(** The constants of [libnmstate.schema] the fixture imports. *)
Variables Interface_KEY Interface_NAME Interface_STATE : str.
Variable InterfaceState_ABSENT : str.
Variables DNS_KEY DNS_CONFIG DNS_SERVER DNS_SEARCH : str.

Definition gcall (c : env_call) : G X json :=
  fun st =>
    (mk_fstate (history st ++ [c]) (file_paths st),
     match env (history st) c with
     | Ok v => GReturn v
     | Fail x => GRaise (Raised x)
     end).

(** [try: m except Exception: pass] *)
Definition gtry_pass (m : G X json) : G X unit :=
  fun st =>
    (fst (m st),
     match snd (m st) with
     | GReturn _ => GReturn tt
     | GRaise (Raised x) =>
         if is_Exception x then GReturn tt else GRaise (Raised x)
     | GRaise _ => GReturn tt
     end).

Definition set_file_paths (l : list str) : G X unit :=
  fun st => (mk_fstate (history st) l, GReturn tt).

Definition get_file_paths : G X (list str) :=
  fun st => (st, GReturn (file_paths st)).

(** [file_paths.append(p)] *)
Definition append_file_path (p : str) : G X unit :=
  fun st => (mk_fstate (history st) (file_paths st ++ [p]), GReturn tt).

(** The code under the [with] statement: it makes calls of its own and
    cannot reach [file_paths]. *)
Definition run_body {A} (body : list env_call -> list env_call * goutcome X A)
    : G X A :=
  fun st =>
    (mk_fstate (history st ++ fst (body (history st))) (file_paths st),
     snd (body (history st))).

Definition save_nmconnection (file_name content : json) : G X str :=
  let file_path := NM_CONN_FOLDER ++ "/" ++ format py_str file_name in
  gcall (open_w file_path) ;;
  gfinally
    (match content with
     | JStr text => gcall (fd_write file_path text) ;; gret tt
     | _ => graise (Builtin TypeError)
     end)
    (gcall (fd_close file_path) ;; gret tt) ;;
  gcall (os_chmod file_path 384) ;;
  gcall (os_chown file_path 0 0) ;;
  gret file_path.

Definition reload_nm_connection : G X unit :=
  gcall (exec_cmd ["nmcli"; "c"; "reload"] true) ;;
  gcall (time_sleep 5) ;;
  gret tt.

(** [absent_state] as the display builds it. *)
Definition absent_state_display : json :=
  dict_literal
    [(Interface_KEY, JList []);
     (DNS_KEY,
      dict_literal
        [(DNS_CONFIG,
          dict_literal [(DNS_SERVER, JList []); (DNS_SEARCH, JList [])])])].

Definition absent_entry (iface_name : json) : json :=
  dict_literal [(Interface_NAME, iface_name);
                (Interface_STATE, JStr InterfaceState_ABSENT)].

(** [absent_state[Interface.KEY].append(entry)] *)
Definition append_absent (absent_state : json) (iface_name : json)
    : G X json :=
  l <- lift (subscript absent_state Interface_KEY) ;;
  match l, absent_state with
  | JList entries, JDict items =>
      gret (JDict (dict_set Interface_KEY
                     (JList (entries ++ [absent_entry iface_name])) items))
  | _, _ => graise (Builtin AttributeError)
  end.

(** The [try] block of [gen_conf_apply], up to and including the code under
    the [with] statement, which runs at the [yield]. *)
Definition gen_conf_apply_try {A} (desire_state : json)
    (body : list env_call -> list env_call * goutcome X A) : G X A :=
  generated <- gcall (libnmstate_generate_configurations desire_state) ;;
  conns <- dict_get generated "NetworkManager" (JList []) ;;
  conns <- lift (iterate conns) ;;
  gfor conns (fun conn =>
    file_name <- index conn 0 ;;
    content <- index conn 1 ;;
    file_path <- save_nmconnection file_name content ;;
    append_file_path file_path) ;;
  reload_nm_connection ;;
  run_body body.

(** The [finally] block of [gen_conf_apply]. *)
Definition gen_conf_apply_finally (iface_names : list json) : G X unit :=
  absent_state <- gfold append_absent absent_state_display iface_names ;;
  gcall (libnmstate_apply absent_state false) ;;
  paths <- get_file_paths ;;
  gfor paths (fun file_path => gtry_pass (gcall (os_unlink file_path))).

(** [with gen_conf_apply(desire_state): body] *)
Definition gen_conf_apply {A} (desire_state : json)
    (body : list env_call -> list env_call * goutcome X A) : G X A :=
  ifaces <- dict_get desire_state Interface_KEY (JList []) ;;
  ifaces <- lift (iterate ifaces) ;;
  iface_names <- gmap (fun iface => lift (subscript iface Interface_NAME))
                   ifaces ;;
  set_file_paths [] ;;
  gfinally (gen_conf_apply_try desire_state body)
    (gen_conf_apply_finally iface_names).

(** *** Vocabulary for the properties of the fixture *)

(** [absent_state] once every name is appended, when the two top-level
    keys differ. *)
Definition absent_state_for (iface_names : list json) : json :=
  JDict
    [(Interface_KEY, JList (map absent_entry iface_names));
     (DNS_KEY,
      dict_literal
        [(DNS_CONFIG,
          dict_literal [(DNS_SERVER, JList []); (DNS_SEARCH, JList [])])])].

(** A desired state that is a dict whose interfaces entry, when present, is
    the list [ifaces]. *)
Definition has_interfaces (desire_state : json) (ifaces : list json) : Prop :=
  match desire_state with
  | JDict items =>
      match lookup Interface_KEY items with
      | Some v => v = JList ifaces
      | None => ifaces = []
      end
  | _ => False
  end.

(** [iface[Interface.NAME]] evaluates to [name]. *)
Definition named (iface name : json) : Prop :=
  result (subscript iface Interface_NAME) = Return name.

(** The path [save_nmconnection] writes a connection to. *)
Definition connection_path (file_name : str) : str :=
  NM_CONN_FOLDER ++ "/" ++ file_name.

(** A generated connection, as a [file_name, content] pair. *)
Definition connection (nc : str * str) : json :=
  JList [JStr (fst nc); JStr (snd nc)].

(** The calls of a [save_nmconnection] that runs to its end. *)
Definition save_calls (nc : str * str) : list env_call :=
  let file_path := connection_path (fst nc) in
  [open_w file_path; fd_write file_path (snd nc); fd_close file_path;
   os_chmod file_path 384; os_chown file_path 0 0].


(** The answer to the [i]-th [os.unlink] of the loop over [paths] that
    starts after the calls [h]; the loop has made the [i] unlinks before
    it by then. *)
Definition unlink_reply (h : list env_call) (paths : list str) (i : nat)
    : option (env_reply X) :=
  match nth_error paths i with
  | Some p =>
      Some (env (h ++ map os_unlink (firstn i paths))%list (os_unlink p))
  | None => None
  end.

(** That [os.unlink] returns, or raises an instance of [Exception], which
    [except Exception: pass] passes over. *)
Definition unlink_passes (h : list env_call) (paths : list str) (i : nat)
    : Prop :=
  forall x, unlink_reply h paths i = Some (Fail x) -> is_Exception x = true.

(** The calls [calls], made one after the other after the calls [h], all
    return. *)
Fixpoint all_return (h calls : list env_call) : Prop :=
  match calls with
  | [] => True
  | c :: rest => (exists v, env h c = Ok v) /\ all_return (h ++ [c])%list rest
  end.

(** A file saved among the calls [calls], which follow the calls [h]: a
    path [NM_CONN_FOLDER/name] that was opened for writing, written to,
    closed, given mode [0o600] and handed to root, by five consecutive
    calls, none of which raised. *)
Definition saved (h calls : list env_call) (p : str) : Prop :=
  exists (name text : str) (before after : list env_call),
    p = connection_path name /\
    calls = (before ++ save_calls (name, text) ++ after)%list /\
    all_return (h ++ before)%list (save_calls (name, text)).

End Fixture.

(** ** Sample environments for the worked examples of the fixture *)

Inductive sample_exn : Type := SampleOSError | SampleNmstateError.

Definition sample_is_Exception (x : sample_exn) : bool := true.

(** One connection file generated for the [NetworkManager] provider. *)
Definition sample_generated : json :=
  JDict [("NetworkManager",
          JList [connection ("eth0.nmconnection", "[connection]")])].

(** Every call succeeds, except that the file to unlink is already gone. *)
Definition env_friendly (h : list env_call) (c : env_call)
    : env_reply sample_exn :=
  match c with
  | libnmstate_generate_configurations _ => Ok sample_generated
  | os_unlink _ => Fail SampleOSError
  | _ => Ok JNull
  end.


Definition sample_desire_state : json :=
  JDict [("interfaces",
          JList [JDict [("name", JStr "eth0"); ("state", JStr "up")]])].

(** The absent state for [eth0], with the keys of [libnmstate.schema]. *)
Definition sample_absent_state : json :=
  JDict [("interfaces",
          JList [JDict [("name", JStr "eth0"); ("state", JStr "absent")]]);
         ("dns-resolver",
          JDict [("config",
                  JDict [("server", JList []); ("search", JList [])])])].

(** Code under [with] that makes no call and ends normally. *)
Definition sample_body (h : list env_call)
    : list env_call * goutcome sample_exn unit :=
  ([], GReturn tt).

Definition sample_fixture
    (env : list env_call -> env_call -> env_reply sample_exn)
    : G sample_exn unit :=
  gen_conf_apply sample_exn sample_is_Exception env sample_py_str
    "interfaces" "name" "state" "absent"
    "dns-resolver" "config" "server" "search"
    sample_desire_state sample_body.

Definition sample_path : str :=
  "/etc/NetworkManager/system-connections/eth0.nmconnection".

(** Exceptions of which one, as [KeyboardInterrupt] in Python, is no
    instance of [Exception]. *)
Inductive sample_base_exn : Type :=
| SampleFileNotFoundError
| SampleKeyboardInterrupt.

Definition sample_base_is_Exception (x : sample_base_exn) : bool :=
  match x with
  | SampleFileNotFoundError => true
  | SampleKeyboardInterrupt => false
  end.

(** Three connection files are generated; when they are to be unlinked the
    first is already gone and the second unlink is interrupted. *)
Definition env_interrupted (h : list env_call) (c : env_call)
    : env_reply sample_base_exn :=
  match c with
  | libnmstate_generate_configurations _ =>
      Ok (JDict [("NetworkManager",
                  JList [connection ("a", "[connection]");
                         connection ("b", "[connection]");
                         connection ("c", "[connection]")])])
  | os_unlink p =>
      if (p =? connection_path "a")%string then Fail SampleFileNotFoundError
      else Fail SampleKeyboardInterrupt
  | _ => Ok JNull
  end.

(** * Properties *)

(** ** Text *)

Example bytes_repr_plain : bytes_repr "PermissionError" = "b'PermissionError'".
Proof. reflexivity. Qed.

Example bytes_repr_escapes :
  bytes_repr (String "010"%char (String "255"%char "it's"))
  = String "b" (String dquote ("\n\xffit's" ++ String dquote EmptyString)).
Proof. reflexivity. Qed.

Example utf8_valid_ascii : utf8_valid "PermissionError" = true.
Proof. reflexivity. Qed.

Example utf8_valid_lone_ff : utf8_valid (String "255"%char EmptyString) = false.
Proof. reflexivity. Qed.

Example utf8_valid_two_bytes :
  utf8_valid (String "195"%char (String "169"%char EmptyString)) = true.
Proof. reflexivity. Qed.

Example utf8_valid_surrogate :
  utf8_valid
    (String "237"%char (String "160"%char (String "128"%char EmptyString)))
  = false.
Proof. reflexivity. Qed.

Example utf8_valid_overlong :
  utf8_valid (String "192"%char (String "128"%char EmptyString)) = false.
Proof. reflexivity. Qed.

Example str_chars_mixed :
  str_chars (String "a" (String "195"%char (String "169"%char "b")))
  = ["a"; String "195"%char (String "169"%char EmptyString); "b"].
Proof. reflexivity. Qed.

(** ** The error taxonomy *)

Lemma decode_trace (v : option bytes) : trace (decode v) = [].
Proof. destruct v as [b|]; cbn; [destruct (utf8_valid b)|]; reflexivity. Qed.

Lemma map_error_trace (k m : option bytes) : trace (map_error k m) = [].
Proof.
  unfold map_error.
  destruct m as [m|]; [|reflexivity].
  cbn. destruct (utf8_valid m); [|reflexivity].
  destruct k as [k|]; [|reflexivity].
  cbn. destruct (utf8_valid k); [|reflexivity].
  cbn.
  repeat match goal with
         | |- context [if ?c then _ else _] => destruct c
         end; reflexivity.
Qed.

Lemma raise_map_error_trace {A} (k m : option bytes) :
  trace (@raise_map_error A k m) = [].
Proof.
  unfold raise_map_error, bind.
  pose proof (map_error_trace k m) as Ht.
  destruct (result (map_error k m)); cbn; rewrite Ht; reflexivity.
Qed.

Lemma raise_map_error_raises {A} (k m : option bytes) :
  exists e, result (@raise_map_error A k m) = Raise e.
Proof.
  unfold raise_map_error, bind.
  destruct (result (map_error k m)) as [e|e]; cbn; eauto.
Qed.

(** After decoding, [map_error] is a chain of comparisons with a default
    arm. *)
Lemma map_error_decoded (kind msg : str) :
  utf8_valid kind = true -> utf8_valid msg = true ->
  map_error (Some kind) (Some msg) =
  ([], Return
     (if kind =? "VerificationError" then NmstateVerificationError msg
      else if kind =? "InvalidArgument" then NmstateValueError msg
      else if kind =? "Bug" then NmstateInternalError msg
      else if kind =? "PluginFailure" then NmstatePluginError msg
      else if kind =? "NotImplementedError" then NmstateNotImplementedError msg
      else if kind =? "KernelIntegerRoundedError"
           then NmstateKernelIntegerRoundedError msg
      else if kind =? "NotSupportedError" then NmstateNotSupportedError msg
      else if kind =? "DependencyError" then NmstateDependencyError msg
      else if kind =? "PermissionError" then NmstatePermissionError msg
      else NmstateError (kind ++ ": " ++ msg))).
Proof.
  intros Hk Hm. unfold map_error, bind, decode, trace, result.
  rewrite Hm. cbn. rewrite Hk. cbn.
  repeat match goal with
         | |- context [if ?c then _ else _] => destruct c
         end; reflexivity.
Qed.

(** C2: on every pair of texts [map_error] returns a value, without raising:
    each of the nine kinds of the table yields its own error class carrying
    the message unchanged, and any other kind yields the generic
    [NmstateError] whose text is the kind, a colon and a space, and the
    message. *)
Theorem map_error_total (kind msg : str) :
  utf8_valid kind = true -> utf8_valid msg = true ->
  exists e,
    map_error (Some kind) (Some msg) = ([], Return e) /\
    (kind = "VerificationError" -> e = NmstateVerificationError msg) /\
    (kind = "InvalidArgument" -> e = NmstateValueError msg) /\
    (kind = "Bug" -> e = NmstateInternalError msg) /\
    (kind = "PluginFailure" -> e = NmstatePluginError msg) /\
    (kind = "NotImplementedError" -> e = NmstateNotImplementedError msg) /\
    (kind = "KernelIntegerRoundedError" ->
     e = NmstateKernelIntegerRoundedError msg) /\
    (kind = "NotSupportedError" -> e = NmstateNotSupportedError msg) /\
    (kind = "DependencyError" -> e = NmstateDependencyError msg) /\
    (kind = "PermissionError" -> e = NmstatePermissionError msg) /\
    (~ In kind taxonomy_kinds -> e = NmstateError (kind ++ ": " ++ msg)).
Proof.
  intros Hk Hm. eexists. split; [apply (map_error_decoded _ _ Hk Hm)|].
  repeat split; try (intros ->; reflexivity).
  intros Hnot.
  repeat match goal with
         | |- context [if (kind =? ?s) then _ else _] =>
             destruct (String.eqb_spec kind s) as [->|_];
             [exfalso; apply Hnot; cbn; tauto|]
         end.
  reflexivity.
Qed.

Lemma map_error_total_witness :
  exists e,
    map_error (Some "Bug") (Some "oops") = ([], Return e) /\
    e = NmstateInternalError "oops".
Proof.
  destruct (map_error_total "Bug" "oops" eq_refl eq_refl)
    as (e & He & _ & _ & Hbug & _).
  exists e. split; [exact He | exact (Hbug eq_refl)].
Defined.

(** With a NULL buffer the decodes of [map_error] decide the outcome. *)
Lemma map_error_null (err_kind err_msg : option bytes) :
  err_kind = None \/ err_msg = None ->
  map_error err_kind err_msg = ([], Raise (null_buffer_exception err_msg)).
Proof.
  intros H.
  destruct err_msg as [m|]; [|reflexivity].
  destruct H as [->|H]; [|discriminate].
  unfold map_error, bind, decode, null_buffer_exception. cbn.
  destruct (utf8_valid m); reflexivity.
Qed.

Lemma null_buffer_exception_builtin (err_msg : option bytes) :
  is_nmstate_error (null_buffer_exception err_msg) = false.
Proof.
  unfold null_buffer_exception.
  destruct err_msg as [m|]; [destruct (utf8_valid m)|]; reflexivity.
Qed.

(** C9 as stated fails: a NULL kind next to a message that is not UTF-8
    ends in [UnicodeDecodeError], not [AttributeError]. *)
Lemma map_error_null_kind_not_attribute_error :
  ~ (forall err_kind err_msg : option bytes,
        err_kind = None \/ err_msg = None ->
        result (map_error err_kind err_msg) = Raise AttributeError).
Proof.
  intros H.
  specialize (H None (Some (String "255"%char EmptyString)) (or_introl eq_refl)).
  cbn in H. discriminate H.
Qed.

(** ** Traces *)

Lemma trace_bind {A B} (m : M A) (f : A -> M B) :
  trace (bind m f) =
  (trace m ++ match result m with
              | Return a => trace (f a)
              | Raise _ => []
              end)%list.
Proof.
  unfold bind. destruct (result m); cbn; [reflexivity|].
  now rewrite app_nil_r.
Qed.

Lemma result_bind {A B} (m : M A) (f : A -> M B) :
  result (bind m f) =
  match result m with
  | Return a => result (f a)
  | Raise e => Raise e
  end.
Proof. unfold bind. destruct (result m); reflexivity. Qed.

(** A projection of the trace (the calls, the releases, ...) follows the
    sequencing of the computation. *)
Lemma observe_bind {A B X} (g : event -> list X) (m : M A) (f : A -> M B) :
  flat_map g (trace (bind m f)) =
  (flat_map g (trace m) ++
   match result m with
   | Return a => flat_map g (trace (f a))
   | Raise _ => []
   end)%list.
Proof.
  rewrite trace_bind, flat_map_app. now destruct (result m).
Qed.

Lemma subscript_trace (v : json) (key : str) : trace (subscript v key) = [].
Proof.
  destruct v; try reflexivity.
  cbn. destruct (lookup key items); reflexivity.
Qed.

Lemma iterate_trace (v : json) : trace (iterate v) = [].
Proof. destruct v; reflexivity. Qed.

(** ** The log bridge *)

Section Properties.

Variable lib : lib_call -> lib_reply.
Variable json_dumps yaml_dump : json -> str.
Variable json_loads : str -> option json.
Variable py_str : json -> str.

(** The loop of [parse_log] only talks to [logging]. *)
Lemma parse_log_entries_quiet {X} (g : event -> list X) (entries : list json) :
  (forall lv msg, g (Logging lv msg) = []) ->
  flat_map g (trace (parse_log_entries py_str entries)) = [].
Proof.
  intros Hg.
  induction entries as [|entry rest IH]; [reflexivity|].
  cbn [parse_log_entries].
  repeat (rewrite observe_bind, subscript_trace; cbn [flat_map app];
          match goal with
          | |- context [result (subscript ?v ?k)] =>
              destruct (result (subscript v k)); [|reflexivity]
          end).
  rewrite observe_bind, IH.
  repeat match goal with
         | |- context [if ?c then _ else _] => destruct c
         end; cbn; rewrite Hg; reflexivity.
Qed.

Lemma parse_log_observed {X} (g : event -> list X) (logs : option bytes) :
  (forall lv msg, g (Logging lv msg) = []) ->
  flat_map g (trace (parse_log json_loads py_str logs)) = g (Bridge logs).
Proof.
  intros Hg. unfold parse_log.
  rewrite observe_bind. cbn [emit trace result fst snd flat_map].
  rewrite !app_nil_r.
  destruct logs as [b|]; [|cbn; now rewrite app_nil_r].
  rewrite observe_bind, iterate_trace. cbn [flat_map app].
  destruct (result (iterate (load_log_entries json_loads b)));
    [|now rewrite app_nil_r].
  rewrite parse_log_entries_quiet by assumption. now rewrite app_nil_r.
Qed.

(** ** The gateway *)

Lemma decode_then_return (v : option bytes) :
  trace (s <- decode v ;; ret (Some s)) = [].
Proof.
  rewrite trace_bind, decode_trace. now destruct (result (decode v)).
Qed.

Lemma trace_call (c : lib_call) : trace (call lib c) = [Call c].
Proof. reflexivity. Qed.

Lemma result_call (c : lib_call) : result (call lib c) = Return (lib c).
Proof. reflexivity. Qed.

Lemma trace_free (b : buffer) : trace (free b) = [Free b].
Proof. reflexivity. Qed.

Lemma result_free (b : buffer) : result (free b) = Return tt.
Proof. reflexivity. Qed.

Lemma pair_eq {A} (m : M A) (t : list event) (o : outcome A) :
  trace m = t -> result m = o -> m = (t, o).
Proof. destruct m; cbn; congruence. Qed.

Ltac gateway :=
  repeat (rewrite ?trace_bind, ?result_bind, ?trace_call, ?result_call,
            ?trace_free, ?result_free; cbv beta iota zeta).

Lemma trace_if {A} (b : bool) (x y : M A) :
  trace x = [] -> trace y = [] -> trace (if b then x else y) = [].
Proof. now destruct b. Qed.

Ltac quiet_ending :=
  rewrite trace_if
    by first [ apply raise_map_error_trace
             | apply decode_then_return
             | reflexivity ].

Ltac gateway_trace :=
  cbn [app]; repeat f_equal;
  try (destruct (result (parse_log _ _ _)); [|reflexivity]);
  cbn [app]; quiet_ending; reflexivity.

Ltac gateway_result :=
  try (destruct (result (parse_log _ _ _)); [|reflexivity]);
  unfold finish; cbn [primary];
  match goal with
  | |- context [negb ?c] => destruct c; reflexivity
  end.

(** Every wrapper function is its call, the log bridge where the
    operation has a log buffer, the releases, and the ending. *)
Lemma run_eq (op : operation) :
  let c := request json_dumps yaml_dump op in
  let r := lib c in
  let logs := parse_log json_loads py_str (value r c_log) in
  run lib json_dumps yaml_dump json_loads py_str op =
  if bridges_logs op then
    (Call c :: trace logs ++
       match result logs with
       | Return _ => map Free (releases op)
       | Raise _ => []
       end,
     match result logs with
     | Return _ => finish op r
     | Raise e => Raise e
     end)%list
  else (Call c :: map Free (releases op), finish op r).
Proof.
  destruct op as [k s i rr|st k v d c t|cp|cp|st|n o|st y|p cs];
    cbn [run bridges_logs request releases map].
  - unfold retrieve_net_state_json.
    match goal with
    | |- context [call lib (nmstate_net_state_retrieve ?f)] =>
        replace f with
          (Z.lor (bit k NMSTATE_FLAG_KERNEL_ONLY)
             (Z.lor (bit s NMSTATE_FLAG_INCLUDE_STATUS_DATA)
                (Z.lor (bit i NMSTATE_FLAG_INCLUDE_SECRETS)
                   (bit rr NMSTATE_FLAG_RUNNING_CONFIG_ONLY))))
          by (destruct k, s, i, rr; reflexivity)
    end.
    apply pair_eq; gateway; [gateway_trace | gateway_result].
  - unfold apply_net_state.
    match goal with
    | |- context [call lib (nmstate_net_state_apply ?f _ _)] =>
        replace f with
          (Z.lor (bit k NMSTATE_FLAG_KERNEL_ONLY)
             (Z.lor (bit (negb v) NMSTATE_FLAG_NO_VERIFY)
                (Z.lor (bit (negb c) NMSTATE_FLAG_NO_COMMIT)
                   (bit (negb d) NMSTATE_FLAG_MEMORY_ONLY))))
          by (destruct k, v, c, d; reflexivity)
    end.
    apply pair_eq; gateway; [gateway_trace | gateway_result].
  - unfold commit_checkpoint.
    apply pair_eq; gateway; [gateway_trace | gateway_result].
  - unfold rollback_checkpoint.
    apply pair_eq; gateway; [gateway_trace | gateway_result].
  - unfold gen_conf.
    apply pair_eq; gateway; [gateway_trace | gateway_result].
  - unfold gen_diff.
    apply pair_eq; gateway; [gateway_trace | gateway_result].
  - unfold net_state_serialize.
    destruct y; (apply pair_eq; gateway; [gateway_trace | gateway_result]).
  - unfold net_state_from_policy.
    apply pair_eq; gateway; [gateway_trace | gateway_result].
Qed.

Lemma run_calls (op : operation) :
  calls (trace (run lib json_dumps yaml_dump json_loads py_str op))
  = [request json_dumps yaml_dump op].
Proof.
  rewrite run_eq. unfold calls.
  destruct (bridges_logs op); cbn [trace fst flat_map app]; f_equal.
  - rewrite flat_map_app, parse_log_observed by reflexivity.
    destruct (result (parse_log _ _ _)); [|reflexivity].
    destruct op; reflexivity.
  - destruct op; reflexivity.
Qed.

Lemma frees_map_Free (l : list buffer) : frees (map Free l) = l.
Proof. induction l as [|b l IH]; [reflexivity|]. cbn. now f_equal. Qed.

Lemma run_frees (op : operation) :
  let r := lib (request json_dumps yaml_dump op) in
  frees (trace (run lib json_dumps yaml_dump json_loads py_str op)) =
  if bridges_logs op then
    match result (parse_log json_loads py_str (value r c_log)) with
    | Return _ => releases op
    | Raise _ => []
    end
  else releases op.
Proof.
  cbv zeta. rewrite run_eq.
  destruct (bridges_logs op); cbn [trace fst].
  - change (frees (?a :: ?t)) with (frees [a] ++ frees t)%list.
    unfold frees at 2. rewrite flat_map_app.
    rewrite parse_log_observed by reflexivity.
    cbn [frees flat_map app].
    destruct (result (parse_log _ _ _)); [|reflexivity].
    apply frees_map_Free.
  - change (frees (?a :: ?t)) with (frees [a] ++ frees t)%list.
    apply frees_map_Free.
Qed.

Lemma run_bridged (op : operation) :
  let r := lib (request json_dumps yaml_dump op) in
  bridged (trace (run lib json_dumps yaml_dump json_loads py_str op)) =
  if bridges_logs op then [value r c_log] else [].
Proof.
  cbv zeta. rewrite run_eq. unfold bridged.
  destruct (bridges_logs op); cbn [trace fst flat_map app].
  - rewrite flat_map_app, parse_log_observed by reflexivity.
    destruct (result (parse_log _ _ _)); [|reflexivity].
    destruct op; reflexivity.
  - destruct op; reflexivity.
Qed.

Lemma run_result (op : operation) :
  let r := lib (request json_dumps yaml_dump op) in
  result (run lib json_dumps yaml_dump json_loads py_str op) =
  if bridges_logs op then
    match result (parse_log json_loads py_str (value r c_log)) with
    | Return _ => finish op r
    | Raise e => Raise e
    end
  else finish op r.
Proof. cbv zeta. rewrite run_eq. now destruct (bridges_logs op). Qed.

(** ** Flag encoding *)

Lemma run_sent_flags (op : operation) :
  sent_flags (trace (run lib json_dumps yaml_dump json_loads py_str op))
  = flags_of (request json_dumps yaml_dump op).
Proof.
  unfold sent_flags. rewrite run_calls. cbn. apply app_nil_r.
Qed.

(** C5: the flag word passed to the engine by retrieval and by apply is
    the bitwise OR of the bits of the selected options: kernel_only is
    [1<<1], verify_change=False is [1<<2], include_status_data is [1<<3],
    include_secrets is [1<<4], commit=False is [1<<5], save_to_disk=False
    is [1<<6], running_config_only is [1<<7]; with the default arguments
    the word is zero. *)
Theorem flag_word_is_or_of_selected_bits :
  (forall k s i r : bool,
      sent_flags (trace (retrieve_net_state_json lib json_loads py_str
                           k s i r))
      = [Z.lor (bit k (Z.shiftl 1 1))
           (Z.lor (bit s (Z.shiftl 1 3))
              (Z.lor (bit i (Z.shiftl 1 4)) (bit r (Z.shiftl 1 7))))]) /\
  (forall (st : json) (k v d c : bool) (t : Z),
      sent_flags (trace (apply_net_state lib json_dumps json_loads py_str
                           st k v d c t))
      = [Z.lor (bit k (Z.shiftl 1 1))
           (Z.lor (bit (negb v) (Z.shiftl 1 2))
              (Z.lor (bit (negb c) (Z.shiftl 1 5))
                 (bit (negb d) (Z.shiftl 1 6))))]) /\
  sent_flags (trace (retrieve_net_state_json lib json_loads py_str
                       false false false false)) = [0%Z] /\
  (forall (st : json) (t : Z),
      sent_flags (trace (apply_net_state lib json_dumps json_loads py_str
                           st false true true true t)) = [0%Z]).
Proof.
  repeat split.
  - intros k s i r. exact (run_sent_flags (Retrieve k s i r)).
  - intros st k v d c t. exact (run_sent_flags (Apply st k v d c t)).
  - exact (run_sent_flags (Retrieve false false false false)).
  - intros st t. exact (run_sent_flags (Apply st false true true true t)).
Qed.

(** C10: a flag word sent to the engine has bit 0 clear and is below 256;
    retrieval sets bits among [1<<1], [1<<3], [1<<4], [1<<7] only, apply
    among [1<<1], [1<<2], [1<<5], [1<<6] only, the two sets share the
    kernel-only bit and nothing else, and no other operation sends a flag
    word. *)
Theorem flag_words_bounded :
  (forall k s i r : bool,
      exists f,
        sent_flags (trace (retrieve_net_state_json lib json_loads py_str
                             k s i r)) = [f] /\
        Z.testbit f 0 = false /\ (0 <= f < 256)%Z /\
        Z.land f retrieve_bits = f) /\
  (forall (st : json) (k v d c : bool) (t : Z),
      exists f,
        sent_flags (trace (apply_net_state lib json_dumps json_loads py_str
                             st k v d c t)) = [f] /\
        Z.testbit f 0 = false /\ (0 <= f < 256)%Z /\
        Z.land f apply_bits = f) /\
  (forall op : operation,
      match op with
      | Retrieve _ _ _ _ | Apply _ _ _ _ _ _ => True
      | _ =>
          sent_flags
            (trace (run lib json_dumps yaml_dump json_loads py_str op)) = []
      end) /\
  Z.land retrieve_bits apply_bits = NMSTATE_FLAG_KERNEL_ONLY.
Proof.
  repeat split.
  - intros k s i r. eexists.
    split; [exact (run_sent_flags (Retrieve k s i r))|].
    destruct k, s, i, r; cbn; repeat split; (reflexivity || lia).
  - intros st k v d c t. eexists.
    split; [exact (run_sent_flags (Apply st k v d c t))|].
    destruct k, v, d, c; cbn; repeat split; (reflexivity || lia).
  - intros op. destruct op; try exact I; apply run_sent_flags.
Qed.

(** ** Log bridging and buffer release *)

(** C6: the diff operation and the serializer never enter the log
    bridge, and retrieval, apply, checkpoint commit and rollback, config
    generation and policy evaluation enter it exactly once, whatever the
    engine replies. *)
Theorem log_bridge_entered_once_or_never :
  (forall n o : json,
      List.length (bridged (trace (gen_diff lib json_dumps n o))) = 0) /\
  (forall (st : json) (y : bool),
      List.length (bridged (trace (net_state_serialize lib json_dumps yaml_dump
                                st y))) = 0) /\
  (forall k s i r : bool,
      List.length (bridged (trace (retrieve_net_state_json lib json_loads py_str
                                k s i r))) = 1) /\
  (forall (st : json) (k v d c : bool) (t : Z),
      List.length (bridged (trace (apply_net_state lib json_dumps json_loads
                                py_str st k v d c t))) = 1) /\
  (forall cp : option bytes,
      List.length (bridged (trace (commit_checkpoint lib json_loads py_str cp)))
      = 1) /\
  (forall cp : option bytes,
      List.length (bridged (trace (rollback_checkpoint lib json_loads py_str cp)))
      = 1) /\
  (forall st : json,
      List.length (bridged (trace (gen_conf lib json_dumps json_loads py_str st)))
      = 1) /\
  (forall p c : json,
      List.length (bridged (trace (net_state_from_policy lib json_dumps json_loads
                                py_str p c))) = 1).
Proof.
  repeat split; intros.
  - pose proof (run_bridged (GenDiff n o)) as H;
    cbn [run bridges_logs] in H; cbv zeta in H; now rewrite H.
  - pose proof (run_bridged (Serialize st y)) as H;
    cbn [run bridges_logs] in H; cbv zeta in H; now rewrite H.
  - pose proof (run_bridged (Retrieve k s i r)) as H;
    cbn [run bridges_logs] in H; cbv zeta in H; now rewrite H.
  - pose proof (run_bridged (Apply st k v d c t)) as H;
    cbn [run bridges_logs] in H; cbv zeta in H; now rewrite H.
  - pose proof (run_bridged (Commit cp)) as H;
    cbn [run bridges_logs] in H; cbv zeta in H; now rewrite H.
  - pose proof (run_bridged (Rollback cp)) as H;
    cbn [run bridges_logs] in H; cbv zeta in H; now rewrite H.
  - pose proof (run_bridged (GenConf st)) as H;
    cbn [run bridges_logs] in H; cbv zeta in H; now rewrite H.
  - pose proof (run_bridged (FromPolicy p c)) as H;
    cbn [run bridges_logs] in H; cbv zeta in H; now rewrite H.
Qed.

(** C3, where the code departs from it: diff and serialization hand three
    buffers to the engine and release two, config generation and policy
    evaluation hand over four and release at most three; the buffer of
    the primary result is the one left out.  Retrieval, the sibling path,
    releases all four of its buffers once the logs are bridged. *)
Theorem primary_result_buffer_not_released :
  (forall n o : json,
      calls (trace (gen_diff lib json_dumps n o))
      = [nmstate_generate_differences (json_dumps n) (json_dumps o)] /\
      output_buffers
        (nmstate_generate_differences (json_dumps n) (json_dumps o))
      = [c_diff_state; c_err_kind; c_err_msg] /\
      frees (trace (gen_diff lib json_dumps n o)) = [c_err_kind; c_err_msg])
  /\
  (forall (st : json) (y : bool),
      output_buffers
        (request json_dumps yaml_dump (Serialize st y))
      = [c_formated_state; c_err_kind; c_err_msg] /\
      frees (trace (net_state_serialize lib json_dumps yaml_dump st y))
      = [c_err_kind; c_err_msg]) /\
  (forall st : json,
      let c := nmstate_generate_configurations (json_dumps st) in
      output_buffers c = [c_configs; c_log; c_err_kind; c_err_msg] /\
      frees (trace (gen_conf lib json_dumps json_loads py_str st))
      = match result (parse_log json_loads py_str (value (lib c) c_log)) with
        | Return _ => [c_log; c_err_kind; c_err_msg]
        | Raise _ => []
        end) /\
  (forall p cs : json,
      let c := nmstate_net_state_from_policy (json_dumps p) (json_dumps cs) in
      output_buffers c = [c_state; c_log; c_err_kind; c_err_msg] /\
      frees (trace (net_state_from_policy lib json_dumps json_loads py_str
                      p cs))
      = match result (parse_log json_loads py_str (value (lib c) c_log)) with
        | Return _ => [c_log; c_err_kind; c_err_msg]
        | Raise _ => []
        end) /\
  (forall k s i r : bool,
      let c := request json_dumps yaml_dump (Retrieve k s i r) in
      output_buffers c = [c_state; c_log; c_err_kind; c_err_msg] /\
      frees (trace (retrieve_net_state_json lib json_loads py_str k s i r))
      = match result (parse_log json_loads py_str (value (lib c) c_log)) with
        | Return _ => [c_log; c_state; c_err_kind; c_err_msg]
        | Raise _ => []
        end).
Proof.
  repeat split; intros.
  - exact (run_calls (GenDiff n o)).
  - exact (run_frees (GenDiff n o)).
  - exact (run_frees (Serialize st y)).
  - exact (run_frees (GenConf st)).
  - exact (run_frees (FromPolicy p cs)).
  - exact (run_frees (Retrieve k s i r)).
Qed.

(** ** What the log bridge can raise *)

Lemma parse_log_none :
  parse_log json_loads py_str None = ([Bridge None], Return tt).
Proof. reflexivity. Qed.

(** A payload that is not UTF-8 or not JSON counts as an empty batch. *)
Lemma parse_log_undecodable (b : bytes) :
  utf8_valid b = false \/ json_loads b = None ->
  parse_log json_loads py_str (Some b) = ([Bridge (Some b)], Return tt).
Proof.
  intros H. unfold parse_log, load_log_entries.
  destruct (utf8_valid b); [|reflexivity].
  destruct H as [H|H]; [discriminate|]. now rewrite H.
Qed.

Lemma subscript_raises (v : json) (key : str) (e : exn) :
  result (subscript v key) = Raise e -> is_nmstate_error e = false.
Proof.
  destruct v; cbn; try (intros [= <-]; reflexivity).
  destruct (lookup key items); cbn; [discriminate|].
  intros [= <-]; reflexivity.
Qed.

Lemma parse_log_entries_raises (entries : list json) (e : exn) :
  result (parse_log_entries py_str entries) = Raise e ->
  is_nmstate_error e = false.
Proof.
  induction entries as [|entry rest IH]; [discriminate|].
  cbn [parse_log_entries].
  repeat (rewrite result_bind;
          match goal with
          | |- context [result (subscript ?v ?k)] =>
              let H := fresh "H" in
              destruct (result (subscript v k)) eqn:H;
              [|intros [= <-]; exact (subscript_raises _ _ _ H)]
          end).
  rewrite result_bind.
  repeat match goal with
         | |- context [if ?c then _ else _] => destruct c
         end; exact IH.
Qed.

(** The log bridge never raises one of the errors of the taxonomy. *)
Lemma parse_log_raises (logs : option bytes) (e : exn) :
  result (parse_log json_loads py_str logs) = Raise e ->
  is_nmstate_error e = false.
Proof.
  unfold parse_log. rewrite result_bind. cbn [emit result snd].
  destruct logs as [b|]; [|discriminate].
  rewrite result_bind.
  destruct (iterate (load_log_entries json_loads b)) as [t [l|e']] eqn:Hit;
    cbn [result snd].
  - apply parse_log_entries_raises.
  - intros [= <-].
    destruct (load_log_entries json_loads b); cbn in Hit;
      now inversion Hit.
Qed.

(** C4, where the code departs from it: a batch that decodes to a list
    holding a record without fields makes [parse_log] raise [KeyError],
    before anything is logged. *)
Theorem parse_log_raises_on_bare_record :
  json_loads "[{}]" = Some (JList [JDict []]) ->
  parse_log json_loads py_str (Some "[{}]")
  = ([Bridge (Some "[{}]")], Raise (KeyError "time")).
Proof.
  intros H. unfold parse_log, load_log_entries. cbn [utf8_valid].
  cbn. rewrite H. reflexivity.
Qed.

(** A batch that decodes to something that cannot be iterated makes
    [parse_log] raise [TypeError]. *)
Lemma parse_log_raises_on_number :
  json_loads "5" = Some (JInt 5) ->
  parse_log json_loads py_str (Some "5")
  = ([Bridge (Some "5")], Raise TypeError).
Proof.
  intros H. unfold parse_log, load_log_entries. cbn. rewrite H. reflexivity.
Qed.

(** ** Status code and outcome *)

Lemma finish_failure (op : operation) (r : lib_reply) :
  rc r <> 0%Z -> exists e, finish op r = Raise e.
Proof.
  intros Hrc. unfold finish, NMSTATE_PASS.
  destruct (Z.eqb_spec (rc r) 0) as [E|_]; [contradiction|]. cbn [negb].
  destruct op; try apply raise_map_error_raises. eauto.
Qed.

Lemma finish_success_none (op : operation) (r : lib_reply) :
  rc r = 0%Z -> primary op = None -> finish op r = Return None.
Proof.
  intros Hrc Hp. unfold finish, NMSTATE_PASS. rewrite Hrc, Hp. reflexivity.
Qed.

Lemma finish_success_text (op : operation) (r : lib_reply) (b : buffer)
    (s : bytes) :
  rc r = 0%Z -> primary op = Some b -> value r b = Some s ->
  utf8_valid s = true -> finish op r = Return (Some s).
Proof.
  intros Hrc Hp Hv Hs. unfold finish, NMSTATE_PASS. rewrite Hrc, Hp, Hv.
  cbn. unfold bind, decode. rewrite Hs. reflexivity.
Qed.

Lemma finish_nmstate_error (op : operation) (r : lib_reply) (e : exn) :
  finish op r = Raise e -> is_nmstate_error e = true -> rc r <> 0%Z.
Proof.
  unfold finish, NMSTATE_PASS.
  destruct (Z.eqb_spec (rc r) 0) as [E|E]; [|intros; assumption].
  cbn [negb]. intros H He. exfalso.
  destruct (primary op) as [b|]; [|discriminate].
  rewrite result_bind in H.
  destruct (value r b) as [v|]; cbn in H.
  - destruct (utf8_valid v); cbn in H; [discriminate|].
    injection H as <-. discriminate.
  - injection H as <-. discriminate.
Qed.

(** C8, as the code has it: a nonzero status code always ends in a raised
    exception, and an error of the taxonomy is raised only on a nonzero
    status code; on status zero, once the logs are bridged (where the
    operation has a log buffer), an operation without primary result
    returns [None], and one whose primary result buffer holds UTF-8 text
    returns that text. *)
Theorem status_decides_outcome (op : operation) :
  let r := lib (request json_dumps yaml_dump op) in
  let logs := parse_log json_loads py_str (value r c_log) in
  let out := result (run lib json_dumps yaml_dump json_loads py_str op) in
  (rc r <> 0%Z -> exists e, out = Raise e) /\
  (forall e, out = Raise e -> is_nmstate_error e = true -> rc r <> 0%Z) /\
  (rc r = 0%Z ->
   (bridges_logs op = true -> result logs = Return tt) ->
   (primary op = None -> out = Return None) /\
   (forall b s, primary op = Some b -> value r b = Some s ->
                utf8_valid s = true -> out = Return (Some s))).
Proof.
  cbv zeta. rewrite run_result.
  set (r := lib (request json_dumps yaml_dump op)).
  set (logs := parse_log json_loads py_str (value r c_log)).
  split; [|split].
  - intros Hrc. destruct (finish_failure op r Hrc) as [e He].
    destruct (bridges_logs op); [|eauto].
    destruct (result logs); eauto.
  - intros e H He.
    destruct (bridges_logs op); [|exact (finish_nmstate_error _ _ _ H He)].
    destruct (result logs) as [u|e'] eqn:Hl.
    + exact (finish_nmstate_error _ _ _ H He).
    + injection H as <-. apply parse_log_raises in Hl. congruence.
  - intros Hrc Hlogs. split.
    + intros Hp. destruct (bridges_logs op);
        [rewrite Hlogs by reflexivity|]; now apply finish_success_none.
    + intros b s Hp Hv Hs. destruct (bridges_logs op);
        [rewrite Hlogs by reflexivity|];
        now apply (finish_success_text op r b s).
Qed.

(** In retrieval an engine failure becomes the generic [NmstateError],
    whose text is the [repr] of the two buffers. *)
Lemma retrieve_failure (k s i rr : bool) :
  let r := lib (request json_dumps yaml_dump (Retrieve k s i rr)) in
  rc r <> 0%Z ->
  result (parse_log json_loads py_str (value r c_log)) = Return tt ->
  result (retrieve_net_state_json lib json_loads py_str k s i rr)
  = Raise (NmstateError (format_bytes (value r c_err_kind) ++ ": "
                           ++ format_bytes (value r c_err_msg))).
Proof.
  cbv zeta. intros Hrc Hl.
  pose proof (run_result (Retrieve k s i rr)) as H.
  cbn [run bridges_logs] in H. cbv zeta in H. rewrite H, Hl.
  unfold finish, NMSTATE_PASS.
  destruct (Z.eqb_spec
              (rc (lib (request json_dumps yaml_dump (Retrieve k s i rr)))) 0)
    as [E|_]; [contradiction|reflexivity].
Qed.

(** In every other operation an engine failure goes through
    [map_error]. *)
Lemma mapped_failure (op : operation) :
  let r := lib (request json_dumps yaml_dump op) in
  match op with Retrieve _ _ _ _ => False | _ => True end ->
  rc r <> 0%Z ->
  (bridges_logs op = true ->
   result (parse_log json_loads py_str (value r c_log)) = Return tt) ->
  result (run lib json_dumps yaml_dump json_loads py_str op)
  = result (@raise_map_error retval (value r c_err_kind) (value r c_err_msg)).
Proof.
  cbv zeta. intros Hop Hrc Hl. rewrite run_result.
  assert (Hf : finish op (lib (request json_dumps yaml_dump op))
               = result (@raise_map_error retval
                           (value (lib (request json_dumps yaml_dump op))
                              c_err_kind)
                           (value (lib (request json_dumps yaml_dump op))
                              c_err_msg))).
  { unfold finish, NMSTATE_PASS.
    destruct (Z.eqb_spec (rc (lib (request json_dumps yaml_dump op))) 0)
      as [E|_]; [contradiction|].
    destruct op; (contradiction || reflexivity). }
  destruct (bridges_logs op); [rewrite Hl by reflexivity|]; exact Hf.
Qed.


(** A batch of records with the four fields is logged record by record,
    and nothing is raised. *)
Lemma parse_log_entries_records (entries : list json) :
  forallb is_record entries = true ->
  result (parse_log_entries py_str entries) = Return tt /\
  List.length (logged (trace (parse_log_entries py_str entries)))
  = List.length entries.
Proof.
  induction entries as [|entry rest IH]; [now split|].
  cbn [forallb]. intros H. apply andb_prop in H as [He Hr].
  destruct (IH Hr) as [IHr IHt]. clear IH.
  destruct entry; try discriminate He. cbn [is_record] in He.
  cbn [parse_log_entries subscript].
  destruct (lookup "time" items); [|discriminate].
  destruct (lookup "file" items); [|discriminate].
  destruct (lookup "msg" items); [|discriminate].
  destruct (lookup "level" items) as [lv|]; [|discriminate].
  unfold logged in *.
  split.
  - repeat (rewrite result_bind; cbn [ret result snd]).
    destruct (equals lv "ERROR"), (equals lv "WARN"), (equals lv "INFO");
      exact IHr.
  - repeat (rewrite observe_bind; cbn [ret trace result fst snd flat_map app]).
    destruct (equals lv "ERROR"), (equals lv "WARN"), (equals lv "INFO");
      cbn [emit result snd]; rewrite length_app, IHt; reflexivity.
Qed.

(** Retrieval never raises one of the named classes of the taxonomy. *)
Lemma retrieve_never_names_variant (k s i rr : bool) (e : exn) :
  let r := lib (request json_dumps yaml_dump (Retrieve k s i rr)) in
  result (retrieve_net_state_json lib json_loads py_str k s i rr) = Raise e ->
  is_nmstate_error e = true ->
  e = NmstateError (format_bytes (value r c_err_kind) ++ ": "
                      ++ format_bytes (value r c_err_msg)).
Proof.
  cbv zeta. intros H He.
  pose proof (run_result (Retrieve k s i rr)) as E.
  cbn [run bridges_logs] in E. cbv zeta in E. rewrite E in H. clear E.
  destruct (result (parse_log _ _ _)) as [u|e'] eqn:Hl.
  - unfold finish in H. cbn [primary] in H.
    destruct (negb _).
    + now injection H as <-.
    + rewrite result_bind in H.
      destruct (value _ c_state) as [v|]; cbn in H.
      * destruct (utf8_valid v); cbn in H; [discriminate|].
        injection H as <-. discriminate.
      * injection H as <-. discriminate.
  - injection H as <-. apply parse_log_raises in Hl. congruence.
Qed.

(** A failing call of any other operation with a NULL kind or message
    buffer hands the caller the exception of the failed decode. *)
Lemma failing_call_null_buffer (op : operation) :
  let r := lib (request json_dumps yaml_dump op) in
  match op with Retrieve _ _ _ _ => False | _ => True end ->
  rc r <> 0%Z ->
  (bridges_logs op = true ->
   result (parse_log json_loads py_str (value r c_log)) = Return tt) ->
  value r c_err_kind = None \/ value r c_err_msg = None ->
  result (run lib json_dumps yaml_dump json_loads py_str op)
  = Raise (null_buffer_exception (value r c_err_msg)).
Proof.
  cbv zeta. intros Hop Hrc Hl Hnull.
  rewrite (mapped_failure op Hop Hrc Hl).
  unfold raise_map_error. rewrite result_bind.
  now rewrite (map_error_null _ _ Hnull).
Qed.

End Properties.

(** C9, as the code has it: with a NULL kind or message buffer [map_error]
    builds no error value and raises a built-in exception instead, namely
    [AttributeError] when the message is NULL or is valid UTF-8, and
    [UnicodeDecodeError] when the kind is NULL and the message is not
    UTF-8.  The caller of a failing operation other than retrieval, once
    the log bridge has returned, receives that exception. *)
Theorem map_error_null_buffer
    (lib : lib_call -> lib_reply) (json_dumps yaml_dump : json -> str)
    (json_loads : str -> option json) (py_str : json -> str)
    (err_kind err_msg : option bytes) :
  err_kind = None \/ err_msg = None ->
  (exists e,
      map_error err_kind err_msg = ([], Raise e) /\
      is_nmstate_error e = false /\
      forall op : operation,
        let r := lib (request json_dumps yaml_dump op) in
        match op with Retrieve _ _ _ _ => False | _ => True end ->
        rc r <> 0%Z ->
        (bridges_logs op = true ->
         result (parse_log json_loads py_str (value r c_log)) = Return tt) ->
        value r c_err_kind = err_kind ->
        value r c_err_msg = err_msg ->
        result (run lib json_dumps yaml_dump json_loads py_str op) = Raise e)
  /\
  (err_msg = None ->
   map_error err_kind err_msg = ([], Raise AttributeError)) /\
  (forall m, err_msg = Some m -> utf8_valid m = true ->
             map_error err_kind err_msg = ([], Raise AttributeError)) /\
  (forall m, err_msg = Some m -> utf8_valid m = false ->
             map_error err_kind err_msg = ([], Raise UnicodeDecodeError)).
Proof.
  intros H. pose proof (map_error_null _ _ H) as E.
  split; [|split; [|split]].
  - eexists. split; [exact E|]. split; [apply null_buffer_exception_builtin|].
    intros op r Hop Hrc Hl Hk Hm. subst r.
    rewrite (failing_call_null_buffer lib json_dumps yaml_dump json_loads
               py_str op Hop Hrc Hl);
      [now rewrite Hm | now rewrite Hk, Hm].
  - intros ->. exact E.
  - intros m -> Hm. rewrite E. cbn. now rewrite Hm.
  - intros m -> Hm. rewrite E. cbn. now rewrite Hm.
Qed.

Lemma map_error_null_buffer_witness :
  map_error None (Some (String "255"%char EmptyString))
  = ([], Raise UnicodeDecodeError) /\
  result (run engine_null_kind sample_json_dumps sample_yaml_dump
            sample_json_loads sample_py_str (Commit None))
  = Raise UnicodeDecodeError.
Proof.
  destruct (map_error_null_buffer engine_null_kind sample_json_dumps
              sample_yaml_dump sample_json_loads sample_py_str
              None (Some (String "255"%char EmptyString))
              (or_introl eq_refl))
    as ((e & He & _ & Hcall) & _ & _ & Hbad).
  split; [exact (Hbad _ eq_refl eq_refl)|].
  rewrite (Hbad _ eq_refl eq_refl) in He. injection He as <-.
  refine (Hcall (Commit None) I _ (fun _ => eq_refl) eq_refl eq_refl).
  cbn. lia.
Defined.


(** ** Worked examples *)

Example retrieve_success :
  retrieve_net_state_json (engine_ok "{}") sample_json_loads sample_py_str
    false false false false
  = ([Call (nmstate_net_state_retrieve 0); Bridge (Some "[]");
      Free c_log; Free c_state; Free c_err_kind; Free c_err_msg],
     Return (Some "{}")).
Proof. reflexivity. Qed.

Example retrieve_with_secrets_flags :
  sent_flags
    (trace (retrieve_net_state_json (engine_ok "{}") sample_json_loads
              sample_py_str true false true false))
  = [18%Z].
Proof. reflexivity. Qed.

Example gen_diff_success :
  gen_diff (engine_ok "{}") sample_json_dumps (JDict []) (JDict [])
  = ([Call (nmstate_generate_differences "{}" "{}");
      Free c_err_kind; Free c_err_msg],
     Return (Some "{}")).
Proof. reflexivity. Qed.

(** A record without fields in the log batch: the call succeeded, yet the
    caller gets [KeyError] and no buffer is released. *)
Example retrieve_bare_record :
  retrieve_net_state_json engine_bare_record sample_json_loads sample_py_str
    false false false false
  = ([Call (nmstate_net_state_retrieve 0); Bridge (Some "[{}]")],
     Raise (KeyError "time")).
Proof. reflexivity. Qed.

Example apply_null_kind :
  result (apply_net_state engine_null_kind sample_json_dumps sample_json_loads
            sample_py_str (JDict []) false true true true 60)
  = Raise UnicodeDecodeError.
Proof. reflexivity. Qed.

Example parse_log_entries_warning :
  parse_log_entries sample_py_str
    [JDict [("time", JStr "12:00:01"); ("file", JStr "nm/apply.rs");
            ("msg", JStr "retrying"); ("level", JStr "WARN")];
     JDict [("time", JInt 5); ("file", JStr "lib.rs");
            ("msg", JStr "done"); ("level", JStr "TRACE")]]
  = ([Logging WARNING "12:00:01:nm/apply.rs: retrying";
      Logging DEBUG "5:lib.rs: done"],
     Return tt).
Proof. reflexivity. Qed.

Lemma parse_log_raises_on_bare_record_witness :
  parse_log sample_json_loads sample_py_str (Some "[{}]")
  = ([Bridge (Some "[{}]")], Raise (KeyError "time")).
Proof.
  exact (parse_log_raises_on_bare_record sample_json_loads sample_py_str
           eq_refl).
Defined.

(** C7, where the code departs from it: when the engine refuses retrieval
    with kind [PermissionError], the wrapper raises the generic
    [NmstateError], with the [repr] of the two byte strings as its text;
    [map_error] on the same pair, and apply against the same engine, give
    [NmstatePermissionError] with the message. *)
Theorem retrieve_raises_generic_error :
  (forall k s i r : bool,
      result (retrieve_net_state_json engine_denied sample_json_loads
                sample_py_str k s i r)
      = Raise (NmstateError "b'PermissionError': b'Permission denied'")) /\
  map_error (Some "PermissionError") (Some "Permission denied")
  = ([], Return (NmstatePermissionError "Permission denied")) /\
  result (apply_net_state engine_denied sample_json_dumps sample_json_loads
            sample_py_str (JDict []) false true true true 60)
  = Raise (NmstatePermissionError "Permission denied").
Proof.
  split; [|split; reflexivity].
  intros k s i r. destruct k, s, i, r; reflexivity.
Qed.

Lemma status_decides_outcome_witness :
  (exists e,
      result (run engine_denied sample_json_dumps sample_yaml_dump
                sample_json_loads sample_py_str (Commit (Some "cp")))
      = Raise e) /\
  result (run (engine_ok "{}") sample_json_dumps sample_yaml_dump
            sample_json_loads sample_py_str
            (Retrieve false false false false))
  = Return (Some "{}") /\
  result (run (engine_ok "{}") sample_json_dumps sample_yaml_dump
            sample_json_loads sample_py_str
            (Apply (JDict []) false true true false 60))
  = Return None.
Proof.
  split; [|split].
  - apply (status_decides_outcome engine_denied sample_json_dumps
             sample_yaml_dump sample_json_loads sample_py_str
             (Commit (Some "cp"))).
    cbn. lia.
  - apply (proj2 (proj2 (status_decides_outcome (engine_ok "{}")
             sample_json_dumps sample_yaml_dump sample_json_loads sample_py_str
             (Retrieve false false false false)))
             eq_refl (fun _ => eq_refl)) with (b := c_state); reflexivity.
  - apply (proj2 (proj2 (status_decides_outcome (engine_ok "{}")
             sample_json_dumps sample_yaml_dump sample_json_loads sample_py_str
             (Apply (JDict []) false true true false 60)))
             eq_refl (fun _ => eq_refl)); reflexivity.
Defined.

(** C8 as stated fails: an engine that reports status zero and leaves the
    result buffer NULL makes diff raise [AttributeError]. *)
Lemma status_zero_yet_raises :
  ~ (forall (lib : lib_call -> lib_reply) (json_dumps yaml_dump : json -> str)
            (json_loads : str -> option json) (py_str : json -> str)
            (op : operation),
        (exists e,
            result (run lib json_dumps yaml_dump json_loads py_str op)
            = Raise e)
        <-> rc (lib (request json_dumps yaml_dump op)) <> 0%Z).
Proof.
  intros H.
  apply (proj1 (H engine_null_result sample_json_dumps sample_yaml_dump
                  sample_json_loads sample_py_str
                  (GenDiff (JDict []) (JDict [])))).
  - exists AttributeError. reflexivity.
  - reflexivity.
Qed.


(** * Further properties of the wrapper *)

(** ** Text built by the wrapper *)

Lemma is_ascii_app (a b : string) :
  is_ascii (a ++ b) = is_ascii a && is_ascii b.
Proof.
  induction a as [|c a IH]; [reflexivity|].
  cbn. rewrite IH. now rewrite andb_assoc.
Qed.

Lemma is_ascii_utf8_valid (s : string) : is_ascii s = true -> utf8_valid s = true.
Proof.
  induction s as [|c s IH]; [reflexivity|].
  cbn [is_ascii utf8_valid]. intros H. apply andb_prop in H as [Hc Hs].
  rewrite Hc. now apply IH.
Qed.

(** Joining two texts gives a text: an f-string of decoded parts is
    well-formed. *)
Lemma utf8_valid_app (a b : bytes) :
  utf8_valid a = true -> utf8_valid b = true -> utf8_valid (a ++ b) = true.
Proof.
  intros Ha Hb. revert Ha.
  remember (String.length a) as n eqn:Hn.
  revert a Hn. induction n as [n IH] using (well_founded_induction lt_wf).
  intros a Hn Ha. destruct a as [|c0 r]; [exact Hb|].
  cbn [append]. cbn [utf8_valid] in *.
  destruct (byte_in 0 127 c0).
  - apply (IH (String.length r)); [subst n; cbn; lia|reflexivity|exact Ha].
  - destruct (byte_in 194 223 c0).
    + destruct r as [|c1 r1]; [discriminate|]. cbn [append].
      apply andb_prop in Ha as [H1 Hr]. rewrite H1. cbn [andb].
      apply (IH (String.length r1)); [subst n; cbn; lia|reflexivity|exact Hr].
    + destruct (byte_in 224 239 c0).
      * destruct r as [|c1 [|c2 r2]]; try discriminate. cbn [append].
        apply andb_prop in Ha as [H12 Hr]. rewrite H12. cbn [andb].
        apply (IH (String.length r2)); [subst n; cbn; lia|reflexivity|exact Hr].
      * destruct (byte_in 240 244 c0); [|discriminate].
        destruct r as [|c1 [|c2 [|c3 r3]]]; try discriminate. cbn [append].
        apply andb_prop in Ha as [H123 Hr]. rewrite H123. cbn [andb].
        apply (IH (String.length r3)); [subst n; cbn; lia|reflexivity|exact Hr].
Qed.

Lemma hexdigit_ascii (n : N) : byte_in 0x00 0x7F (hexdigit n) = true.
Proof.
  unfold hexdigit. generalize (N.to_nat n) as k. intros k.
  do 16 (destruct k as [|k]; [reflexivity|]).
  reflexivity.
Qed.

Lemma repr_body_ascii (quote : ascii) (b : bytes) :
  byte_in 0x00 0x7F quote = true -> is_ascii (repr_body quote b) = true.
Proof.
  intros Hq. induction b as [|c r IH]; [reflexivity|].
  cbn [repr_body].
  destruct (Ascii.eqb_spec c quote) as [->|_]; cbn [orb].
  { cbn [is_ascii]. now rewrite Hq, IH. }
  destruct (Ascii.eqb_spec c backslash) as [->|_].
  { cbn [is_ascii]. now rewrite IH. }
  destruct (Ascii.eqb c "009"); [cbn [is_ascii]; now rewrite IH|].
  destruct (Ascii.eqb c "010"); [cbn [is_ascii]; now rewrite IH|].
  destruct (Ascii.eqb c "013"); [cbn [is_ascii]; now rewrite IH|].
  destruct (N_of_ascii c <? 32)%N eqn:Hlo; cbn [orb].
  { cbn [is_ascii]. now rewrite !hexdigit_ascii, IH. }
  destruct (127 <=? N_of_ascii c)%N eqn:Hhi.
  { cbn [is_ascii]. now rewrite !hexdigit_ascii, IH. }
  cbn [is_ascii]. rewrite IH, andb_true_r.
  unfold byte_in. apply N.leb_gt in Hhi.
  apply andb_true_intro. split; apply N.leb_le; lia.
Qed.

(** The [repr] of a bytes object is printable 7-bit text, whatever the
    bytes. *)
Lemma bytes_repr_ascii (b : bytes) : is_ascii (bytes_repr b) = true.
Proof.
  unfold bytes_repr.
  set (quote := if contains squote b && negb (contains dquote b)
                then dquote else squote).
  assert (Hq : byte_in 0x00 0x7F quote = true)
    by (unfold quote; now destruct (contains squote b && negb (contains dquote b))).
  cbn [is_ascii]. rewrite Hq, is_ascii_app, repr_body_ascii by exact Hq.
  cbn [is_ascii]. now rewrite Hq.
Qed.

Lemma format_bytes_ascii (v : option bytes) : is_ascii (format_bytes v) = true.
Proof. destruct v as [b|]; [apply bytes_repr_ascii|reflexivity]. Qed.

(** ** The engine call and the releases *)

Section WrapperFacts.

Variable lib : lib_call -> lib_reply.
Variable json_dumps yaml_dump : json -> str.
Variable json_loads : str -> option json.
Variable py_str : json -> str.


(** No wrapper function releases a buffer twice, and it releases only
    buffers it handed to the engine by reference. *)
Theorem releases_are_safe (op : operation) :
  let t := trace (run lib json_dumps yaml_dump json_loads py_str op) in
  NoDup (frees t) /\
  incl (frees t) (output_buffers (request json_dumps yaml_dump op)).
Proof.
  cbv zeta. rewrite run_frees.
  assert (Hnil : forall l : list buffer, NoDup (@nil buffer) /\ incl [] l)
    by (intros l; split; [constructor|intros x []]).
  assert (Hrel : NoDup (releases op) /\
                 incl (releases op)
                   (output_buffers (request json_dumps yaml_dump op))).
  { destruct op; cbn; (split;
      [repeat constructor; cbn; intuition discriminate
      |intros x Hx; cbn in *; intuition auto]). }
  destruct (bridges_logs op); [|exact Hrel].
  destruct (result (parse_log _ _ _)); [exact Hrel|apply Hnil].
Qed.

(** Once the log bridge has returned, the buffers are released before the
    status code is looked at: the error-kind and error-message buffers (the
    log buffer first, where there is one, and the state buffer in retrieval)
    are released on the failure path as on the success path. *)
Theorem releases_ignore_status (op : operation) :
  let r := lib (request json_dumps yaml_dump op) in
  (bridges_logs op = true ->
   result (parse_log json_loads py_str (value r c_log)) = Return tt) ->
  frees (trace (run lib json_dumps yaml_dump json_loads py_str op))
  = ((if bridges_logs op then [c_log] else []) ++
     match op with Retrieve _ _ _ _ => [c_state] | _ => [] end ++
     [c_err_kind; c_err_msg])%list.
Proof.
  cbv zeta. intros Hl. rewrite run_frees.
  destruct (bridges_logs op) eqn:Hb.
  - rewrite Hl by reflexivity. destruct op; try discriminate; reflexivity.
  - destruct op; try discriminate; reflexivity.
Qed.

(** ** What reaches [logging] *)

Lemma bind_ret_l {A B} (a : A) (f : A -> M B) : bind (ret a) f = f a.
Proof. unfold bind, ret. cbn. now destruct (f a). Qed.

Lemma bind_assoc {A B C} (m : M A) (f : A -> M B) (g : B -> M C) :
  bind (bind m f) g = bind m (fun a => bind (f a) g).
Proof.
  destruct m as [t [a|e]]; unfold bind; cbn; [|reflexivity].
  destruct (f a) as [t' [b|e']]; cbn; [|reflexivity].
  destruct (g b) as [t'' o]; cbn. now rewrite app_assoc.
Qed.

Lemma M_eq {A} (m m' : M A) :
  trace m = trace m' -> result m = result m' -> m = m'.
Proof. destruct m, m'; cbn; congruence. Qed.

Ltac through_subscripts :=
  repeat (rewrite ?trace_bind, ?result_bind;
          match goal with
          | |- context [result (subscript ?v ?k)] =>
              destruct (result (subscript v k)); [|try reflexivity]
          end).

(** The loop over a batch is the loop over its first part followed by the
    loop over the rest. *)
Lemma parse_log_entries_app (a b : list json) :
  parse_log_entries py_str (a ++ b)%list =
  (parse_log_entries py_str a ;; parse_log_entries py_str b).
Proof.
  induction a as [|x a IH].
  - cbn [app parse_log_entries]. now rewrite bind_ret_l.
  - cbn [app parse_log_entries]. rewrite IH. apply M_eq.
    + through_subscripts; try (now rewrite ?subscript_trace).
      rewrite ?trace_bind, ?result_bind.
      repeat match goal with
             | |- context [if ?c then _ else _] => destruct c
             end;
        cbn [emit trace result fst snd];
        destruct (snd (parse_log_entries py_str a));
        rewrite ?subscript_trace, <- ?app_assoc, ?app_nil_r; reflexivity.
    + through_subscripts.
      rewrite ?trace_bind, ?result_bind.
      repeat match goal with
             | |- context [if ?c then _ else _] => destruct c
             end;
        cbn [emit trace result fst snd];
        now destruct (snd (parse_log_entries py_str a)).
Qed.

Lemma logged_lines (lines : list (level * str)) :
  logged (map (fun l => Logging (fst l) (snd l)) lines) = lines.
Proof.
  induction lines as [|[lv m] l IH]; [reflexivity|].
  cbn. unfold logged in IH. now rewrite IH.
Qed.

Lemma parse_log_entries_lines (entries : list json) :
  forallb is_record entries = true ->
  parse_log_entries py_str entries
  = (map (fun l => Logging (fst l) (snd l)) (record_lines py_str entries),
     Return tt) /\
  List.length (record_lines py_str entries) = List.length entries.
Proof.
  induction entries as [|entry rest IH]; [now split|].
  cbn [forallb]. intros H. apply andb_prop in H as [He Hr].
  destruct (IH Hr) as [IHe IHl]. clear IH.
  destruct entry; try discriminate He. cbn [is_record] in He.
  unfold record_lines in *. cbn [flat_map record_line].
  cbn [parse_log_entries subscript].
  destruct (lookup "time" items); [|discriminate].
  destruct (lookup "file" items); [|discriminate].
  destruct (lookup "msg" items); [|discriminate].
  destruct (lookup "level" items) as [lv|]; [|discriminate].
  rewrite !bind_ret_l, IHe. cbn [app map fst snd List.length].
  split; [|now rewrite IHl].
  unfold level_of.
  destruct (equals lv "ERROR"), (equals lv "WARN"), (equals lv "INFO");
    reflexivity.
Qed.

(** An entry that is not a record with the four fields stops the loop at
    once and nothing is logged for it: [TypeError] for an entry that is
    not a dict, [KeyError] with the first missing field for a dict. *)
Lemma parse_log_entries_bad (bad : json) (rest : list json) :
  is_record bad = false ->
  exists e,
    parse_log_entries py_str (bad :: rest) = ([], Raise e) /\
    match bad with
    | JDict items => exists before key after,
        ["time"; "file"; "msg"; "level"] = (before ++ key :: after)%list /\
        Forall (fun k => lookup k items <> None) before /\
        lookup key items = None /\
        e = KeyError key
    | _ => e = TypeError
    end.
Proof.
  intros H. cbn [parse_log_entries].
  destruct bad; try (eexists; split; reflexivity).
  cbn [is_record] in H. cbn [subscript].
  destruct (lookup "time" items) eqn:Ht.
  2:{ eexists; split; [reflexivity|].
      exists [], "time", ["file"; "msg"; "level"]. now repeat split. }
  destruct (lookup "file" items) eqn:Hf.
  2:{ eexists; split; [reflexivity|].
      exists ["time"], "file", ["msg"; "level"].
      repeat split; [|exact Hf]. repeat constructor. congruence. }
  destruct (lookup "msg" items) eqn:Hm.
  2:{ eexists; split; [reflexivity|].
      exists ["time"; "file"], "msg", ["level"].
      repeat split; [|exact Hm]. repeat constructor; congruence. }
  destruct (lookup "level" items) eqn:Hv; [discriminate|].
  eexists; split; [reflexivity|].
  exists ["time"; "file"; "msg"], "level", [].
  repeat split; [|exact Hv]. repeat constructor; congruence.
Qed.

(** The records ahead of a malformed entry are logged, in order; the
    malformed entry raises [TypeError] when it is not a dict and
    [KeyError], naming the first of [time], [file], [msg], [level] it
    lacks, when it is a dict; nothing is logged for it and the entries
    after it are not looked at. *)
Theorem records_before_bad_entry_are_logged
    (good : list json) (bad : json) (rest : list json) :
  forallb is_record good = true ->
  is_record bad = false ->
  exists e,
    parse_log_entries py_str (good ++ bad :: rest)%list
    = (map (fun l => Logging (fst l) (snd l)) (record_lines py_str good),
       Raise e) /\
    match bad with
    | JDict items => exists before key after,
        ["time"; "file"; "msg"; "level"] = (before ++ key :: after)%list /\
        Forall (fun k => lookup k items <> None) before /\
        lookup key items = None /\
        e = KeyError key
    | _ => e = TypeError
    end.
Proof.
  intros Hg Hb.
  destruct (parse_log_entries_bad bad rest Hb) as (e & He & Hcase).
  exists e. split; [|exact Hcase].
  rewrite parse_log_entries_app, He.
  rewrite (proj1 (parse_log_entries_lines good Hg)).
  unfold bind. cbn. now rewrite app_nil_r.
Qed.

(** Whatever the status code, an operation with a log buffer whose batch
    decodes to a list of records logs every record once, in order, with
    the level picked from the record ([ERROR], [WARN], [INFO], anything
    else at debug level) and the text [time:file: msg]; the call then ends
    as the status code says. *)
Theorem records_are_logged_on_every_path
    (op : operation) (b : bytes) (entries : list json) :
  let r := lib (request json_dumps yaml_dump op) in
  bridges_logs op = true ->
  value r c_log = Some b ->
  utf8_valid b = true ->
  json_loads b = Some (JList entries) ->
  forallb is_record entries = true ->
  logged (trace (run lib json_dumps yaml_dump json_loads py_str op))
  = record_lines py_str entries /\
  List.length (record_lines py_str entries) = List.length entries /\
  result (run lib json_dumps yaml_dump json_loads py_str op) = finish op r.
Proof.
  cbv zeta. intros Hb Hv Hu Hj He.
  destruct (parse_log_entries_lines entries He) as [Hlines Hlen].
  assert (Hp : parse_log json_loads py_str (Some b)
               = (Bridge (Some b)
                    :: map (fun l => Logging (fst l) (snd l))
                         (record_lines py_str entries),
                  Return tt)).
  { unfold parse_log, load_log_entries. rewrite Hu, Hj.
    cbn [iterate]. rewrite bind_ret_l, Hlines. reflexivity. }
  rewrite run_eq, Hb, Hv, Hp. cbn [trace result fst snd].
  split; [|split; [exact Hlen|reflexivity]].
  unfold logged. cbn [flat_map app]. rewrite flat_map_app.
  assert (Hrel : flat_map
                   (fun ev => match ev with
                              | Logging lv m => [(lv, m)]
                              | _ => []
                              end) (map Free (releases op)) = [])
    by (destruct op; reflexivity).
  rewrite Hrel, app_nil_r. apply logged_lines.
Qed.

(** A log buffer that is NULL, is not UTF-8, or is not JSON leaves no
    trace in [logging] and no mark on the call: the buffers are released
    and the call ends as the status code says. *)
Theorem undecodable_logs_are_ignored (op : operation) :
  let r := lib (request json_dumps yaml_dump op) in
  bridges_logs op = true ->
  value r c_log = None \/
  (exists b, value r c_log = Some b /\
             (utf8_valid b = false \/ json_loads b = None)) ->
  logged (trace (run lib json_dumps yaml_dump json_loads py_str op)) = [] /\
  frees (trace (run lib json_dumps yaml_dump json_loads py_str op))
  = releases op /\
  result (run lib json_dumps yaml_dump json_loads py_str op) = finish op r.
Proof.
  cbv zeta. intros Hb Hlog.
  assert (Hp : parse_log json_loads py_str
                 (value (lib (request json_dumps yaml_dump op)) c_log)
               = ([Bridge (value (lib (request json_dumps yaml_dump op)) c_log)],
                  Return tt)).
  { destruct Hlog as [-> | (b & -> & Hbad)];
      [reflexivity | now apply parse_log_undecodable]. }
  rewrite run_frees, run_eq, Hb, Hp. cbn [trace result fst snd app].
  split; [|split; reflexivity].
  destruct op; reflexivity.
Qed.

(** ** Errors *)

Lemma map_error_cases (k m : option bytes) :
  (exists kind msg e,
      k = Some kind /\ m = Some msg /\
      utf8_valid kind = true /\ utf8_valid msg = true /\
      map_error k m = ([], Return e) /\ is_nmstate_error e = true /\
      (message_of e = msg \/ message_of e = kind ++ ": " ++ msg)) \/
  (exists e,
      map_error k m = ([], Raise e) /\
      (e = AttributeError \/ e = UnicodeDecodeError) /\
      ~ (exists kind msg,
            k = Some kind /\ m = Some msg /\
            utf8_valid kind = true /\ utf8_valid msg = true)).
Proof.
  destruct m as [msg|].
  2:{ right. exists AttributeError. split; [reflexivity|]. split; [auto|].
      intros (? & ? & _ & [=] & _). }
  destruct (utf8_valid msg) eqn:Hm.
  2:{ right. exists UnicodeDecodeError. split.
      - unfold map_error, bind, decode. cbn. now rewrite Hm.
      - split; [auto|]. intros (? & ? & _ & [= <-] & _ & H). congruence. }
  destruct k as [kind|].
  2:{ right. exists AttributeError. split.
      - unfold map_error, bind, decode. cbn. now rewrite Hm.
      - split; [auto|]. intros (? & ? & [=] & _). }
  destruct (utf8_valid kind) eqn:Hk.
  2:{ right. exists UnicodeDecodeError. split.
      - unfold map_error, bind, decode. cbn. now rewrite Hm, Hk.
      - split; [auto|]. intros (? & ? & [= <-] & _ & H & _). congruence. }
  left. exists kind, msg. eexists.
  repeat (split; [reflexivity || eassumption|]).
  split; [apply (map_error_decoded _ _ Hk Hm)|].
  repeat match goal with
         | |- context [if ?c then _ else _] => destruct c
         end; cbn; auto.
Qed.

(** [map_error] returns an error value exactly when both buffers hold
    UTF-8 text; the value is then one of the classes of
    [libnmstate.error].  In every other case it raises [AttributeError] or
    [UnicodeDecodeError]. *)
Theorem map_error_returns_iff_text (k m : option bytes) :
  ((exists e, result (map_error k m) = Return e) <->
   (exists kind msg,
       k = Some kind /\ m = Some msg /\
       utf8_valid kind = true /\ utf8_valid msg = true)) /\
  (forall e, result (map_error k m) = Return e -> is_nmstate_error e = true)
  /\
  (forall e, result (map_error k m) = Raise e ->
             e = AttributeError \/ e = UnicodeDecodeError).
Proof.
  destruct (map_error_cases k m)
    as [(kind & msg & e & Hk & Hm & Hvk & Hvm & E & He & _)
       |(e & E & He & Hnot)]; rewrite E; cbn [result snd].
  - split; [|split].
    + split; intros _; [exists kind, msg; auto | eauto].
    + now intros e' [= <-].
    + discriminate.
  - split; [|split].
    + split; [intros [e' [=]] | intros H; contradiction].
    + discriminate.
    + now intros e' [= <-].
Qed.

(** A failing call of any operation but retrieval raises what [map_error]
    yields on the two error buffers: the mapped error when both decode, the
    exception of the failed decode otherwise. *)
Theorem failing_call_raises_what_map_error_yields (op : operation) :
  let r := lib (request json_dumps yaml_dump op) in
  match op with Retrieve _ _ _ _ => False | _ => True end ->
  rc r <> 0%Z ->
  (bridges_logs op = true ->
   result (parse_log json_loads py_str (value r c_log)) = Return tt) ->
  result (run lib json_dumps yaml_dump json_loads py_str op)
  = Raise match result (map_error (value r c_err_kind) (value r c_err_msg)) with
          | Return e => e
          | Raise e => e
          end.
Proof.
  cbv zeta. intros Hop Hrc Hl.
  rewrite (mapped_failure lib json_dumps yaml_dump json_loads py_str
             op Hop Hrc Hl).
  unfold raise_map_error. rewrite result_bind.
  now destruct (result (map_error _ _)).
Qed.

(** A failing retrieval raises the generic [NmstateError] whatever the
    error buffers hold, NULL pointers and bytes that are not UTF-8
    included; its text is the [repr] of the kind buffer, a colon and a
    space, and the [repr] of the message buffer, and is 7-bit. *)
Theorem failing_retrieval_is_always_generic (k s i rr : bool) :
  let r := lib (request json_dumps yaml_dump (Retrieve k s i rr)) in
  let text := format_bytes (value r c_err_kind) ++ ": "
                ++ format_bytes (value r c_err_msg) in
  rc r <> 0%Z ->
  result (parse_log json_loads py_str (value r c_log)) = Return tt ->
  result (retrieve_net_state_json lib json_loads py_str k s i rr)
  = Raise (NmstateError text) /\
  is_ascii text = true.
Proof.
  cbv zeta. intros Hrc Hl. split.
  - exact (retrieve_failure lib json_dumps yaml_dump json_loads py_str
             k s i rr Hrc Hl).
  - rewrite !is_ascii_app, !format_bytes_ascii. reflexivity.
Qed.

Lemma builtin_has_no_message (e : exn) :
  is_nmstate_error e = false -> message_of e = EmptyString.
Proof. destruct e; (discriminate || reflexivity). Qed.

Lemma finish_text (op : operation) (r : lib_reply) :
  (forall s, finish op r = Return (Some s) -> utf8_valid s = true) /\
  (forall e, finish op r = Raise e -> utf8_valid (message_of e) = true).
Proof.
  unfold finish. destruct (negb (rc r =? NMSTATE_PASS)%Z).
  - assert (Hmapped :
      (forall s, result (@raise_map_error retval (value r c_err_kind)
                           (value r c_err_msg)) = Return (Some s) ->
                 utf8_valid s = true) /\
      (forall e, result (@raise_map_error retval (value r c_err_kind)
                           (value r c_err_msg)) = Raise e ->
                 utf8_valid (message_of e) = true)).
    { unfold raise_map_error. rewrite result_bind.
      destruct (map_error_cases (value r c_err_kind) (value r c_err_msg))
        as [(kind & msg & e & _ & _ & Hvk & Hvm & E & _ & Hmsg)
           |(e & E & He & _)]; rewrite E; cbn [result snd raise].
      - split; [discriminate|]. intros e' [= <-].
        destruct Hmsg as [-> | ->]; [exact Hvm|].
        now repeat apply utf8_valid_app.
      - split; [discriminate|]. intros e' [= <-].
        now destruct He as [-> | ->]. }
    destruct op; try exact Hmapped.
    split; [discriminate|]. intros e [= <-].
    apply is_ascii_utf8_valid. unfold message_of.
    rewrite is_ascii_app, format_bytes_ascii. cbn [andb append is_ascii].
    now rewrite format_bytes_ascii.
  - destruct (primary op) as [b|].
    + rewrite result_bind. destruct (value r b) as [v|]; cbn.
      * destruct (utf8_valid v) eqn:Hv; cbn.
        -- split; [now intros s [= <-] | discriminate].
        -- split; [discriminate | now intros e [= <-]].
      * split; [discriminate | now intros e [= <-]].
    + split; [discriminate | discriminate].
Qed.

(** Every [str] that leaves a wrapper function is well-formed text: the
    returned document and the message of a raised error are valid UTF-8,
    whatever bytes the engine wrote into its buffers. *)
Theorem wrapper_strings_are_text (op : operation) :
  (forall s,
      result (run lib json_dumps yaml_dump json_loads py_str op)
      = Return (Some s) -> utf8_valid s = true) /\
  (forall e,
      result (run lib json_dumps yaml_dump json_loads py_str op) = Raise e ->
      utf8_valid (message_of e) = true).
Proof.
  rewrite run_result.
  pose proof (finish_text op (lib (request json_dumps yaml_dump op))) as Hf.
  destruct (bridges_logs op); [|exact Hf].
  destruct (result (parse_log _ _ _)) eqn:Hl; [exact Hf|].
  split; [discriminate|]. intros e' [= <-].
  apply parse_log_raises in Hl.
  now rewrite (builtin_has_no_message _ Hl).
Qed.

(** ** Flags *)

(** The options can be read back from the flag word: each option owns one
    bit, so two calls with different options never send the same word. *)
Theorem options_can_be_read_back_from_flags :
  (forall k s i r : bool,
      exists f,
        sent_flags (trace (retrieve_net_state_json lib json_loads py_str
                             k s i r)) = [f] /\
        Z.testbit f 1 = k /\ Z.testbit f 3 = s /\
        Z.testbit f 4 = i /\ Z.testbit f 7 = r) /\
  (forall (st : json) (k v d c : bool) (t : Z),
      exists f,
        sent_flags (trace (apply_net_state lib json_dumps json_loads py_str
                             st k v d c t)) = [f] /\
        Z.testbit f 1 = k /\ Z.testbit f 2 = negb v /\
        Z.testbit f 5 = negb c /\ Z.testbit f 6 = negb d).
Proof.
  split.
  - intros k s i r. eexists. split.
    + exact (run_sent_flags lib json_dumps yaml_dump json_loads py_str
               (Retrieve k s i r)).
    + destruct k, s, i, r; repeat split.
  - intros st k v d c t. eexists. split.
    + exact (run_sent_flags lib json_dumps yaml_dump json_loads py_str
               (Apply st k v d c t)).
    + destruct k, v, d, c; repeat split.
Qed.

End WrapperFacts.

(** ** Worked examples, continued *)


Lemma releases_ignore_status_witness :
  frees (trace (run engine_denied sample_json_dumps sample_yaml_dump
                  sample_json_loads sample_py_str
                  (Retrieve false false false false)))
  = [c_log; c_state; c_err_kind; c_err_msg].
Proof.
  exact (releases_ignore_status engine_denied sample_json_dumps
           sample_yaml_dump sample_json_loads sample_py_str
           (Retrieve false false false false) (fun _ => eq_refl)).
Defined.

Lemma records_before_bad_entry_are_logged_witness :
  exists e,
    parse_log_entries sample_py_str (two_records ++ [JInt 5; JNull])%list
    = ([Logging WARNING "12:00:01:nm/apply.rs: retrying";
        Logging ERROR "12:00:02:nm/apply.rs: giving up"], Raise e) /\
    e = TypeError.
Proof.
  exact (records_before_bad_entry_are_logged sample_py_str
           two_records (JInt 5) [JNull] eq_refl eq_refl).
Defined.

Lemma records_are_logged_on_every_path_witness :
  logged (trace (run engine_two_records sample_json_dumps sample_yaml_dump
                   records_json_loads sample_py_str (Commit None)))
  = [(WARNING, "12:00:01:nm/apply.rs: retrying");
     (ERROR, "12:00:02:nm/apply.rs: giving up")].
Proof.
  exact (proj1 (records_are_logged_on_every_path engine_two_records
                  sample_json_dumps sample_yaml_dump records_json_loads
                  sample_py_str (Commit None) two_records_text two_records
                  eq_refl eq_refl eq_refl eq_refl eq_refl)).
Defined.

Lemma undecodable_logs_are_ignored_witness :
  logged (trace (run engine_garbled_log sample_json_dumps sample_yaml_dump
                   sample_json_loads sample_py_str (GenConf (JDict []))))
  = [] /\
  result (run engine_garbled_log sample_json_dumps sample_yaml_dump
            sample_json_loads sample_py_str (GenConf (JDict [])))
  = Raise (NmstateInternalError "state lost").
Proof.
  destruct (undecodable_logs_are_ignored engine_garbled_log sample_json_dumps
              sample_yaml_dump sample_json_loads sample_py_str
              (GenConf (JDict [])) eq_refl
              (or_intror (ex_intro _ (String "255"%char EmptyString)
                            (conj eq_refl (or_introl eq_refl)))))
    as (Hl & _ & Hr).
  split; [exact Hl | exact Hr].
Defined.

Lemma failing_call_raises_what_map_error_yields_witness :
  result (run engine_denied sample_json_dumps sample_yaml_dump
            sample_json_loads sample_py_str (Rollback (Some "cp")))
  = Raise (NmstatePermissionError "Permission denied").
Proof.
  refine (failing_call_raises_what_map_error_yields engine_denied
            sample_json_dumps sample_yaml_dump sample_json_loads sample_py_str
            (Rollback (Some "cp")) I _ (fun _ => eq_refl)).
  cbn. lia.
Defined.

Lemma failing_retrieval_is_always_generic_witness :
  result (retrieve_net_state_json engine_null_kind sample_json_loads
            sample_py_str false false false false)
  = Raise (NmstateError "None: b'\xff'").
Proof.
  refine (proj1 (failing_retrieval_is_always_generic engine_null_kind
                   sample_json_dumps sample_yaml_dump sample_json_loads
                   sample_py_str false false false false _ eq_refl)).
  cbn. lia.
Defined.

(** * Properties of the fixture *)

Section FixtureFacts.

Local Open Scope fixture_scope.

Variable X : Type.
Variable is_Exception : X -> bool.
Variable env : list env_call -> env_call -> env_reply X.
Variable py_str : json -> str.
Variables Interface_KEY Interface_NAME Interface_STATE : str.
Variable InterfaceState_ABSENT : str.
Variables DNS_KEY DNS_CONFIG DNS_SERVER DNS_SEARCH : str.

Ltac step_env :=
  match goal with
  | |- context [env ?h ?c] =>
      lazymatch h with
      | context [env] => fail
      | _ => let H := fresh "Henv" in destruct (env h c) eqn:H
      end
  end;
  cbn [fst snd history file_paths].

Lemma save_nmconnection_shape (file_name content : json) (st : fstate) :
  let out := save_nmconnection X env py_str file_name content st in
  exists calls,
    fst out = mk_fstate (history st ++ calls) (file_paths st) /\
    unlinks_nothing calls /\
    (forall q, snd out = GReturn q ->
               q = connection_path (format py_str file_name) /\
               exists text,
                 content = JStr text /\
                 calls = save_calls (format py_str file_name, text) /\
                 all_return X env (history st) calls).
Proof.
  cbv zeta. unfold save_nmconnection, save_calls, connection_path.
  cbn [fst snd].
  set (file_path := NM_CONN_FOLDER ++ "/" ++ format py_str file_name).
  unfold gbind, gfinally, gcall, gret, graise.
  cbn [fst snd history file_paths].
  destruct content; repeat step_env;
    (eexists; split; [rewrite <- ?app_assoc; cbn [app]; reflexivity|]);
    (split;
     [intros p Hin;
      repeat (destruct Hin as [Hin|Hin]; [discriminate Hin|]); exact Hin|]);
    first [discriminate
          |intros q [= Hq]; rewrite <- Hq; split; [reflexivity|];
           eexists; split; [reflexivity|]; split; [reflexivity|];
           cbn [all_return];
           repeat match goal with
                  | |- _ /\ _ => split
                  | |- exists _, _ => eexists; eassumption
                  | |- True => exact I
                  end].
Qed.

(** [save_nmconnection] returns only the path
    [NM_CONN_FOLDER/file_name], and only after the content, a [str], was
    written, the file closed, its mode set to [0o600] and its owner to
    root; it never touches [file_paths]; when [open] fails nothing else is
    attempted; the file is closed whenever it was opened, also when the
    write fails: a content that is not a [str] raises [TypeError], a
    failing write raises its exception, in both cases after the close and
    unless the close fails too, whose exception then takes over. *)
Theorem save_nmconnection_calls (file_name content : json) (st : fstate) :
  let file_path := NM_CONN_FOLDER ++ "/" ++ format py_str file_name in
  let out := save_nmconnection X env py_str file_name content st in
  let opened := (history st ++ [open_w file_path])%list in
  exists calls,
    fst out = mk_fstate (history st ++ calls) (file_paths st) /\
    (forall q, snd out = GReturn q ->
               q = file_path /\
               exists text,
                 content = JStr text /\
                 calls = [open_w file_path; fd_write file_path text;
                          fd_close file_path; os_chmod file_path 384;
                          os_chown file_path 0 0]) /\
    (forall v, env (history st) (open_w file_path) = Ok v ->
               exists rest,
                 calls = open_w file_path :: rest /\
                 In (fd_close file_path) rest) /\
    (forall x, env (history st) (open_w file_path) = Fail x ->
               calls = [open_w file_path] /\ snd out = GRaise (Raised x)) /\
    (forall v, env (history st) (open_w file_path) = Ok v ->
               (forall text, content <> JStr text) ->
               calls = [open_w file_path; fd_close file_path] /\
               snd out = match env opened (fd_close file_path) with
                         | Ok _ => GRaise (Builtin TypeError)
                         | Fail x => GRaise (Raised x)
                         end) /\
    (forall v text x,
        env (history st) (open_w file_path) = Ok v ->
        content = JStr text ->
        env opened (fd_write file_path text) = Fail x ->
        calls = [open_w file_path; fd_write file_path text;
                 fd_close file_path] /\
        snd out = match env (opened ++ [fd_write file_path text])
                          (fd_close file_path) with
                  | Ok _ => GRaise (Raised x)
                  | Fail x' => GRaise (Raised x')
                  end).
Proof.
  cbv zeta. unfold save_nmconnection.
  set (file_path := NM_CONN_FOLDER ++ "/" ++ format py_str file_name).
  unfold gbind, gfinally, gcall, gret, graise.
  cbn [fst snd history file_paths].
  step_env.
  2:{ exists [open_w file_path]. split; [reflexivity|].
      split; [discriminate|]. split; [discriminate|].
      split; [intros x' [= <-]; now split|].
      split; discriminate. }
  destruct content; cbn [fst snd history file_paths];
    repeat step_env;
    (eexists; split; [rewrite <- ?app_assoc; cbn [app]; reflexivity|]);
    (split; [first [discriminate
                   |intros q [= Hq]; rewrite <- Hq; split; [reflexivity|];
                    eexists; split; reflexivity]|]);
    (split; [intros w _; eexists; split; [reflexivity|cbn; auto 6]|]);
    (split; [discriminate|]);
    (split;
     [intros w _ Hns;
      first [exfalso; eapply Hns; reflexivity | split; reflexivity]
     |intros w text x' _ Hc Hw;
      first [discriminate Hc
            |injection Hc as <-;
             match goal with
             | H : env ?h ?c = _, H' : env ?h ?c = _ |- _ => rewrite H in H'
             end;
             match goal with
             | H : Ok _ = Fail _ |- _ => discriminate H
             | H : Fail _ = Ok _ |- _ => discriminate H
             | H : Fail _ = Fail _ |- _ => injection H as <-
             end;
             repeat match goal with
                    | H : env _ _ = _ |- _ => rewrite H
                    end;
             split; reflexivity]]).
Qed.

(** ** Sequencing *)

Lemma gbind_returns {A B} (m : G X A) (f : A -> G X B) (st st' : fstate)
    (a : A) :
  m st = (st', GReturn a) -> gbind m f st = f a st'.
Proof. intros H. unfold gbind. now rewrite H. Qed.

Lemma gbind_raises {A B} (m : G X A) (f : A -> G X B) (st st' : fstate)
    (e : pyexn X) :
  m st = (st', GRaise e) -> gbind m f st = (st', GRaise e).
Proof. intros H. unfold gbind. now rewrite H. Qed.

(** ** The interface names and the absent state *)

Lemma gmap_names (ifaces names : list json) (st : fstate) :
  Forall2 (named Interface_NAME) ifaces names ->
  gmap (fun iface => @lift X _ (subscript iface Interface_NAME)) ifaces st
  = (st, GReturn names).
Proof.
  intros H. induction H as [|iface name ifaces names Hn _ IH]; [reflexivity|].
  cbn [gmap]. unfold named in Hn.
  erewrite gbind_returns; [|unfold lift; now rewrite Hn].
  erewrite gbind_returns; [|exact IH]. reflexivity.
Qed.


Lemma absent_state_display_eq :
  Interface_KEY <> DNS_KEY ->
  absent_state_display Interface_KEY DNS_KEY DNS_CONFIG DNS_SERVER DNS_SEARCH
  = absent_state_for Interface_KEY Interface_NAME Interface_STATE
      InterfaceState_ABSENT DNS_KEY DNS_CONFIG DNS_SERVER DNS_SEARCH [].
Proof.
  intros Hk. unfold absent_state_display, absent_state_for.
  unfold dict_literal at 1. cbn [fold_left dict_set fst snd map].
  destruct (String.eqb_spec Interface_KEY DNS_KEY); [contradiction|reflexivity].
Qed.

Lemma gfold_absent (done names : list json) (dns : json) (st : fstate) :
  gfold (append_absent X Interface_KEY Interface_NAME Interface_STATE
           InterfaceState_ABSENT)
    (JDict [(Interface_KEY,
             JList (map (absent_entry Interface_NAME Interface_STATE
                           InterfaceState_ABSENT) done));
            (DNS_KEY, dns)])
    names st
  = (st,
     GReturn
       (JDict [(Interface_KEY,
                JList (map (absent_entry Interface_NAME Interface_STATE
                              InterfaceState_ABSENT) (done ++ names)%list));
               (DNS_KEY, dns)])).
Proof.
  revert done. induction names as [|name names IH]; intros done.
  - now rewrite app_nil_r.
  - cbn [gfold]. erewrite gbind_returns.
    2:{ unfold append_absent, lift, gbind. cbn [subscript lookup].
        rewrite String.eqb_refl. cbn. rewrite String.eqb_refl. reflexivity. }
    specialize (IH (done ++ [name])%list).
    rewrite map_app in IH. cbn [map] in IH. rewrite IH.
    now rewrite <- app_assoc.
Qed.

(** ** The [finally] block *)

Lemma unlink_loop (paths : list str) (st : fstate) :
  (forall h p x, env h (os_unlink p) = Fail x -> is_Exception x = true) ->
  gfor paths (fun file_path =>
                gtry_pass X is_Exception (gcall X env (os_unlink file_path)))
    st
  = (mk_fstate (history st ++ map os_unlink paths) (file_paths st),
     GReturn tt).
Proof.
  intros Hexc. revert st. induction paths as [|p paths IH]; intros st.
  - cbn. rewrite app_nil_r. now destruct st.
  - cbn [gfor map]. erewrite gbind_returns.
    2:{ unfold gtry_pass, gcall. cbn [fst snd].
        destruct (env (history st) (os_unlink p)) as [v|x] eqn:Hu;
          [reflexivity|].
        now rewrite (Hexc _ _ _ Hu). }
    rewrite IH. cbn [history file_paths]. now rewrite <- app_assoc.
Qed.

Lemma finally_applies (names : list json) (st : fstate) :
  let absent :=
    absent_state_for Interface_KEY Interface_NAME Interface_STATE
      InterfaceState_ABSENT DNS_KEY DNS_CONFIG DNS_SERVER DNS_SEARCH names in
  Interface_KEY <> DNS_KEY ->
  (forall h p x, env h (os_unlink p) = Fail x -> is_Exception x = true) ->
  gen_conf_apply_finally X is_Exception env Interface_KEY Interface_NAME
    Interface_STATE InterfaceState_ABSENT DNS_KEY DNS_CONFIG DNS_SERVER
    DNS_SEARCH names st
  = match env (history st) (libnmstate_apply absent false) with
    | Ok _ =>
        (mk_fstate
           (history st
              ++ libnmstate_apply absent false
                   :: map os_unlink (file_paths st))
           (file_paths st),
         GReturn tt)
    | Fail x =>
        (mk_fstate (history st ++ [libnmstate_apply absent false])
           (file_paths st),
         GRaise (Raised x))
    end.
Proof.
  cbv zeta. intros Hk Hexc. unfold gen_conf_apply_finally.
  erewrite gbind_returns.
  2:{ rewrite (absent_state_display_eq Hk). unfold absent_state_for.
      cbn [map]. apply (gfold_absent [] names). }
  cbn [app].
  fold (absent_state_for Interface_KEY Interface_NAME Interface_STATE
          InterfaceState_ABSENT DNS_KEY DNS_CONFIG DNS_SERVER DNS_SEARCH names).
  unfold gbind at 1. unfold gcall at 1 2. cbn [fst snd].
  destruct (env (history st) (libnmstate_apply _ false)) as [v|x];
    [|reflexivity].
  unfold gbind, get_file_paths. cbn [fst snd].
  rewrite (unlink_loop _ _ Hexc). unfold gcall.
  cbn [fst history file_paths]. now rewrite <- app_assoc.
Qed.

Lemma gen_conf_apply_unfolds {A} (ds : json) (ifaces names : list json)
    (body : list env_call -> list env_call * goutcome X A) (st : fstate) :
  has_interfaces Interface_KEY ds ifaces ->
  Forall2 (named Interface_NAME) ifaces names ->
  gen_conf_apply X is_Exception env py_str Interface_KEY Interface_NAME
    Interface_STATE InterfaceState_ABSENT DNS_KEY DNS_CONFIG DNS_SERVER
    DNS_SEARCH ds body st
  = gfinally (gen_conf_apply_try X env py_str ds body)
      (gen_conf_apply_finally X is_Exception env Interface_KEY Interface_NAME
         Interface_STATE InterfaceState_ABSENT DNS_KEY DNS_CONFIG DNS_SERVER
         DNS_SEARCH names)
      (mk_fstate (history st) []).
Proof.
  intros Hds Hn. unfold gen_conf_apply.
  assert (Hget : @dict_get X ds Interface_KEY (JList []) st
                 = (st, GReturn (JList ifaces))).
  { destruct ds; try contradiction. cbn in Hds. unfold dict_get, gret.
    destruct (lookup Interface_KEY items); now subst. }
  erewrite gbind_returns; [|exact Hget].
  erewrite gbind_returns; [|reflexivity].
  erewrite gbind_returns; [|exact (gmap_names _ _ _ Hn)].
  erewrite gbind_returns; [|reflexivity].
  reflexivity.
Qed.

(** ** The loop over [file_paths] *)

Lemma unlink_reply_first (h : list env_call) (p : str) (rest : list str) :
  unlink_reply X env h (p :: rest) 0 = Some (env h (os_unlink p)).
Proof. unfold unlink_reply. cbn. now rewrite app_nil_r. Qed.

Lemma unlink_reply_next (h : list env_call) (p : str) (rest : list str)
    (i : nat) :
  unlink_reply X env h (p :: rest) (S i)
  = unlink_reply X env (h ++ [os_unlink p]) rest i.
Proof.
  unfold unlink_reply. cbn [nth_error firstn map]. now rewrite <- app_assoc.
Qed.

(** The loop unlinks the paths in order and passes over every instance of
    [Exception]; it stops at the first [os.unlink] that raises something
    else, and raises that. *)
Lemma unlink_loop_stops (paths : list str) (st : fstate) :
  let out :=
    gfor paths (fun file_path =>
                  gtry_pass X is_Exception (gcall X env (os_unlink file_path)))
      st in
  exists k,
    fst out
    = mk_fstate (history st ++ map os_unlink (firstn k paths)) (file_paths st) /\
    ((k = List.length paths /\
      (forall i, unlink_passes X is_Exception env (history st) paths i) /\
      snd out = GReturn tt) \/
     (exists i x,
         k = S i /\
         (forall j, j < i ->
                    unlink_passes X is_Exception env (history st) paths j) /\
         unlink_reply X env (history st) paths i = Some (Fail x) /\
         is_Exception x = false /\
         snd out = GRaise (Raised x))).
Proof.
  cbv zeta. revert st. induction paths as [|p paths IH]; intros st.
  - exists 0. cbn. rewrite app_nil_r. split; [now destruct st|].
    left. repeat split. intros i x. unfold unlink_reply.
    destruct i; discriminate.
  - cbn [gfor].
    set (st1 := mk_fstate (history st ++ [os_unlink p]) (file_paths st)).
    match goal with
    | |- ?G =>
        assert (Hcont :
          gtry_pass X is_Exception (gcall X env (os_unlink p)) st
          = (st1, GReturn tt) ->
          unlink_passes X is_Exception env (history st) (p :: paths) 0 -> G)
    end.
    { intros Hstep H0. rewrite (gbind_returns _ _ _ _ _ Hstep).
      destruct (IH st1) as (k & Hst & Hcase). exists (S k). split.
      - rewrite Hst. cbn [history file_paths st1 firstn map].
        now rewrite <- app_assoc.
      - destruct Hcase
          as [(-> & Hall & Hout) | (i & x & -> & Hbefore & Hrep & Hx & Hout)].
        + left. repeat split; [|exact Hout].
          intros [|i]; [exact H0|].
          unfold unlink_passes. rewrite unlink_reply_next. apply Hall.
        + right. exists (S i), x. repeat split; try assumption.
          * intros [|j] Hj; [exact H0|].
            unfold unlink_passes. rewrite unlink_reply_next.
            apply Hbefore. lia.
          * rewrite unlink_reply_next. exact Hrep. }
    destruct (env (history st) (os_unlink p)) as [v|x] eqn:Hu.
    + apply Hcont.
      * unfold gtry_pass, gcall. cbn [fst snd]. now rewrite Hu.
      * intros x. rewrite unlink_reply_first, Hu. discriminate.
    + destruct (is_Exception x) eqn:Hx.
      * apply Hcont.
        -- unfold gtry_pass, gcall. cbn [fst snd]. now rewrite Hu, Hx.
        -- intros x'. rewrite unlink_reply_first, Hu. intros [= <-]. exact Hx.
      * exists 1. erewrite gbind_raises with (st' := st1) (e := Raised x).
        2:{ unfold gtry_pass, gcall. cbn [fst snd]. now rewrite Hu, Hx. }
        split; [reflexivity|]. right. exists 0, x.
        repeat split; [intros j Hj; lia| |exact Hx].
        now rewrite unlink_reply_first, Hu.
Qed.

(** Once the absent state is applied, what is left of the [finally] block
    is the loop over [file_paths]. *)
Lemma finally_reaches_loop (names : list json) (st : fstate) (v : json) :
  let absent :=
    absent_state_for Interface_KEY Interface_NAME Interface_STATE
      InterfaceState_ABSENT DNS_KEY DNS_CONFIG DNS_SERVER DNS_SEARCH names in
  Interface_KEY <> DNS_KEY ->
  env (history st) (libnmstate_apply absent false) = Ok v ->
  gen_conf_apply_finally X is_Exception env Interface_KEY Interface_NAME
    Interface_STATE InterfaceState_ABSENT DNS_KEY DNS_CONFIG DNS_SERVER
    DNS_SEARCH names st
  = gfor (file_paths st)
      (fun file_path =>
         gtry_pass X is_Exception (gcall X env (os_unlink file_path)))
      (mk_fstate (history st ++ [libnmstate_apply absent false])
         (file_paths st)).
Proof.
  cbv zeta. intros Hk Happly. unfold gen_conf_apply_finally.
  erewrite gbind_returns.
  2:{ rewrite (absent_state_display_eq Hk). unfold absent_state_for.
      cbn [map]. apply (gfold_absent [] names). }
  cbn [app].
  fold (absent_state_for Interface_KEY Interface_NAME Interface_STATE
          InterfaceState_ABSENT DNS_KEY DNS_CONFIG DNS_SERVER DNS_SEARCH names).
  erewrite gbind_returns.
  2:{ unfold gcall. now rewrite Happly. }
  erewrite gbind_returns; reflexivity.
Qed.

(** ** Leaving the [with] statement *)

(** When the absent state is applied without error, the paths recorded in
    [file_paths] are unlinked after that apply, once each and in order.  An
    [os.unlink] that raises an instance of [Exception] is passed over.  The
    first [os.unlink] that raises anything else (a [KeyboardInterrupt],
    say) ends the loop: the paths after it are not unlinked and the [with]
    statement ends with that exception.  When no [os.unlink] does, every
    path is unlinked and the [with] statement ends as its [try] block did:
    with the exception of the set-up or of the code under [with], or
    normally. *)
Theorem files_are_unlinked_after_absent_apply {A}
    (ds : json) (ifaces names : list json)
    (body : list env_call -> list env_call * goutcome X A)
    (st : fstate) (v : json) :
  let absent :=
    absent_state_for Interface_KEY Interface_NAME Interface_STATE
      InterfaceState_ABSENT DNS_KEY DNS_CONFIG DNS_SERVER DNS_SEARCH names in
  let t := gen_conf_apply_try X env py_str ds body
             (mk_fstate (history st) []) in
  let applied := (history (fst t) ++ [libnmstate_apply absent false])%list in
  let paths := file_paths (fst t) in
  let out :=
    gen_conf_apply X is_Exception env py_str Interface_KEY Interface_NAME
      Interface_STATE InterfaceState_ABSENT DNS_KEY DNS_CONFIG DNS_SERVER
      DNS_SEARCH ds body st in
  Interface_KEY <> DNS_KEY ->
  has_interfaces Interface_KEY ds ifaces ->
  Forall2 (named Interface_NAME) ifaces names ->
  env (history (fst t)) (libnmstate_apply absent false) = Ok v ->
  (exists k,
      fst out
      = mk_fstate (applied ++ map os_unlink (firstn k paths)) paths /\
      ((k = List.length paths /\
        (forall i, unlink_passes X is_Exception env applied paths i) /\
        snd out = snd t) \/
       (exists i x,
           k = S i /\
           (forall j, j < i ->
                      unlink_passes X is_Exception env applied paths j) /\
           unlink_reply X env applied paths i = Some (Fail x) /\
           is_Exception x = false /\
           snd out = GRaise (Raised x)))) /\
  ((forall h p x, env h (os_unlink p) = Fail x -> is_Exception x = true) ->
   out
   = (mk_fstate
        (history (fst t)
           ++ libnmstate_apply absent false
                :: map os_unlink (file_paths (fst t)))
        (file_paths (fst t)),
      snd t)).
Proof.
  cbv zeta. intros Hk Hds Hn Happly.
  rewrite (gen_conf_apply_unfolds ds ifaces names body st Hds Hn).
  unfold gfinally. cbv zeta. split.
  - rewrite (finally_reaches_loop names _ v Hk Happly).
    match goal with
    | |- context [gfor ?l ?f ?s] =>
        destruct (unlink_loop_stops l s) as (k & Hst & Hcase);
        cbv zeta in Hst, Hcase; cbn [history file_paths] in Hst, Hcase
    end.
    exists k.
    destruct Hcase
      as [(Hlen & Hall & Hout) | (i & x & Hlen & Hbefore & Hrep & Hx & Hout)];
      rewrite Hout; cbn [fst snd].
    + split; [exact Hst|]. left. now repeat split.
    + split; [exact Hst|]. right. exists i, x. now repeat split.
  - intros Hexc. rewrite (finally_applies names _ Hk Hexc), Happly.
    reflexivity.
Qed.



(** ** What gets recorded in [file_paths], and what is unlinked *)

Lemma index_pure (v : json) (i : nat) (st : fstate) :
  fst (@index X v i st) = st.
Proof.
  destruct v; try reflexivity; cbn.
  - destruct (nth_error (str_chars s) i); reflexivity.
  - destruct (nth_error items i); reflexivity.
Qed.

Lemma dict_get_pure (d : json) (key : str) (default : json) (st : fstate) :
  fst (@dict_get X d key default st) = st.
Proof. destruct d; reflexivity. Qed.

Lemma lift_pure {A} (m : M A) (st : fstate) : fst (@lift X A m st) = st.
Proof. unfold lift. destruct (result m); reflexivity. Qed.

Lemma gmap_pure {B C} (f : B -> G X C) (l : list B) (st : fstate) :
  (forall b st', fst (f b st') = st') -> fst (gmap f l st) = st.
Proof.
  intros Hf. revert st. induction l as [|b l IH]; intros st; [reflexivity|].
  cbn [gmap]. unfold gbind. specialize (Hf b st).
  destruct (f b st) as [st' [c|e]]; cbn [fst snd] in *; subst st';
    [|reflexivity].
  specialize (IH st).
  destruct (gmap f l st) as [st' [cs|e]]; cbn [fst snd] in *; now subst st'.
Qed.

Lemma gfold_pure {S B} (f : S -> B -> G X S) (s : S) (l : list B)
    (st : fstate) :
  (forall s' b st', fst (f s' b st') = st') -> fst (gfold f s l st) = st.
Proof.
  intros Hf. revert s. induction l as [|b l IH]; intros s; [reflexivity|].
  cbn [gfold]. unfold gbind. specialize (Hf s b st).
  destruct (f s b st) as [st' [s'|e]]; cbn [fst snd] in *; subst st';
    [apply IH|reflexivity].
Qed.

Lemma append_absent_pure (absent_state iface_name : json) (st : fstate) :
  fst (append_absent X Interface_KEY Interface_NAME Interface_STATE
         InterfaceState_ABSENT absent_state iface_name st) = st.
Proof.
  unfold append_absent, gbind.
  pose proof (lift_pure (subscript absent_state Interface_KEY) st) as Hl.
  destruct (@lift X _ (subscript absent_state Interface_KEY) st)
    as [st' [l|e]]; cbn [fst snd] in *; subst st'; [|reflexivity].
  destruct l, absent_state; reflexivity.
Qed.

Lemma gfinally_fst {B} (m : G X B) (c : G X unit) (st : fstate) :
  fst (gfinally m c st) = fst (c (fst (m st))).
Proof. unfold gfinally. cbv zeta. now destruct (snd (c (fst (m st)))). Qed.

Lemma unlinks_nothing_app (a b : list env_call) :
  unlinks_nothing a -> unlinks_nothing b -> unlinks_nothing (a ++ b).
Proof.
  intros Ha Hb p Hin. apply in_app_or in Hin.
  destruct Hin as [Hin|Hin]; [exact (Ha p Hin)|exact (Hb p Hin)].
Qed.

Lemma saved_more (h calls more : list env_call) (p : str) :
  saved X env h calls p -> saved X env h (calls ++ more) p.
Proof.
  intros (name & text & before & after & Hp & -> & Hr).
  exists name, text, before, (after ++ more)%list.
  split; [exact Hp|]. split; [|exact Hr]. now rewrite <- !app_assoc.
Qed.

Lemma saved_after (h pre calls : list env_call) (p : str) :
  saved X env (h ++ pre) calls p -> saved X env h (pre ++ calls) p.
Proof.
  intros (name & text & before & after & Hp & -> & Hr).
  exists name, text, (pre ++ before)%list, after.
  split; [exact Hp|]. split; [now rewrite <- app_assoc|].
  now rewrite app_assoc.
Qed.

(** The loop over the generated connections records a path only after
    [save_nmconnection] returned it. *)
Lemma record_loop (conns : list json) (st : fstate) :
  let out :=
    gfor conns (fun conn =>
      file_name <- index conn 0 ;;
      content <- index conn 1 ;;
      file_path <- save_nmconnection X env py_str file_name content ;;
      append_file_path X file_path) st in
  exists calls paths,
    fst out = mk_fstate (history st ++ calls) (file_paths st ++ paths) /\
    unlinks_nothing calls /\
    Forall (saved X env (history st) calls) paths.
Proof.
  cbv zeta. revert st. induction conns as [|conn conns IH]; intros st.
  - exists [], []. cbn. rewrite !app_nil_r.
    split; [now destruct st|]. split; [intros p []|constructor].
  - cbn [gfor].
    set (step := fun conn : json =>
      file_name <- index conn 0 ;;
      content <- index conn 1 ;;
      file_path <- save_nmconnection X env py_str file_name content ;;
      append_file_path X file_path) in *.
    assert (Hnone :
      exists calls paths,
        st = mk_fstate (history st ++ calls) (file_paths st ++ paths) /\
        unlinks_nothing calls /\
        Forall (saved X env (history st) calls) paths).
    { exists [], []. rewrite !app_nil_r.
      split; [now destruct st|]. split; [intros p []|constructor]. }
    assert (Hstep :
      exists calls paths,
        fst (step conn st)
        = mk_fstate (history st ++ calls) (file_paths st ++ paths) /\
        unlinks_nothing calls /\
        Forall (saved X env (history st) calls) paths).
    { unfold step, gbind.
      pose proof (index_pure conn 0 st) as H0.
      destruct (@index X conn 0 st) as [st0 [file_name|e0]]; cbn in H0; subst st0;
        cbn [fst snd]; [|exact Hnone].
      pose proof (index_pure conn 1 st) as H1.
      destruct (@index X conn 1 st) as [st1 [content|e1]]; cbn in H1; subst st1;
        cbn [fst snd]; [|exact Hnone].
      destruct (save_nmconnection_shape file_name content st)
        as (calls & Hst & Hnu & Hret).
      destruct (save_nmconnection X env py_str file_name content st)
        as [st2 [q|e2]]; cbn [fst snd] in *; subst st2.
      - destruct (Hret q eq_refl) as (-> & text & _ & Hcalls & Hall).
        exists calls, [connection_path (format py_str file_name)].
        split; [reflexivity|]. split; [exact Hnu|].
        constructor; [|constructor].
        exists (format py_str file_name), text, [], [].
        split; [reflexivity|]. rewrite !app_nil_r. cbn [app].
        split; [exact Hcalls|]. now rewrite <- Hcalls.
      - exists calls, []. rewrite app_nil_r.
        split; [reflexivity|]. split; [exact Hnu|constructor]. }
    clear Hnone.
    destruct Hstep as (calls & paths & Hst & Hnu & Hw).
    destruct (step conn st) as [st' [u|e]] eqn:Hs; cbn [fst snd] in Hst;
      subst st'.
    + rewrite (gbind_returns _ _ _ _ _ Hs).
      destruct (IH (mk_fstate (history st ++ calls) (file_paths st ++ paths)))
        as (calls' & paths' & Hst' & Hnu' & Hw').
      cbn [history file_paths] in Hst', Hw'. rewrite <- !app_assoc in Hst'.
      exists (calls ++ calls')%list, (paths ++ paths')%list.
      split; [exact Hst'|]. split; [now apply unlinks_nothing_app|].
      apply Forall_app. split.
      * eapply Forall_impl; [|exact Hw]. intros p. apply saved_more.
      * eapply Forall_impl; [|exact Hw']. intros p. apply saved_after.
    + rewrite (gbind_raises _ _ _ _ _ Hs).
      exists calls, paths. split; [reflexivity|]. now split.
Qed.

Lemma reload_calls (st : fstate) :
  exists more,
    fst (reload_nm_connection X env st)
    = mk_fstate (history st ++ more) (file_paths st) /\
    unlinks_nothing more.
Proof.
  unfold reload_nm_connection, gbind, gcall, gret.
  cbn [fst snd history file_paths].
  repeat step_env;
    (eexists; split; [rewrite <- ?app_assoc; cbn [app]; reflexivity|]);
    intros p Hin;
    repeat (destruct Hin as [Hin|Hin]; [discriminate Hin|]); exact Hin.
Qed.

(** The [try] block: it generates the configurations, saves and records
    them, reloads, and then runs the code under [with]. *)
Lemma try_block_shape {A} (ds : json)
    (body : list env_call -> list env_call * goutcome X A)
    (h : list env_call) :
  let generate := libnmstate_generate_configurations ds in
  let t := gen_conf_apply_try X env py_str ds body (mk_fstate h []) in
  exists set_up body_calls,
    fst t
    = mk_fstate (h ++ generate :: set_up ++ body_calls) (file_paths (fst t)) /\
    unlinks_nothing set_up /\
    (body_calls = [] \/
     body_calls = fst (body (h ++ generate :: set_up)%list)) /\
    Forall (saved X env (h ++ [generate]) set_up) (file_paths (fst t)).
Proof.
  cbv zeta.
  assert (H : exists set_up body_calls paths,
             fst (gen_conf_apply_try X env py_str ds body (mk_fstate h []))
             = mk_fstate
                 (h ++ libnmstate_generate_configurations ds
                      :: set_up ++ body_calls)
                 paths /\
             unlinks_nothing set_up /\
             (body_calls = [] \/
              body_calls
              = fst (body (h ++ libnmstate_generate_configurations ds
                               :: set_up)%list)) /\
             Forall (saved X env
                       (h ++ [libnmstate_generate_configurations ds]) set_up)
               paths).
  2:{ destruct H as (set_up & body_calls & paths & Hst & Hnu & Hb & Hw).
      exists set_up, body_calls. rewrite Hst. cbn [file_paths]. auto. }
  unfold gen_conf_apply_try.
  set (generate := libnmstate_generate_configurations ds).
  set (st1 := mk_fstate (h ++ [generate]) []).
  assert (Hcons : forall calls,
             (history st1 ++ calls = h ++ generate :: calls)%list)
    by (intros; cbn; now rewrite <- app_assoc).
  assert (Hmid : forall set_up paths,
             unlinks_nothing set_up ->
             Forall (saved X env (h ++ [generate]) set_up) paths ->
             exists set_up' body_calls paths',
               mk_fstate (history st1 ++ set_up) paths
               = mk_fstate (h ++ generate :: set_up' ++ body_calls) paths' /\
               unlinks_nothing set_up' /\
               (body_calls = [] \/
                body_calls = fst (body (h ++ generate :: set_up')%list)) /\
               Forall (saved X env (h ++ [generate]) set_up') paths').
  { intros set_up paths Hnu Hw. exists set_up, [], paths.
    rewrite Hcons, app_nil_r. auto. }
  assert (Hstop : exists set_up body_calls paths,
             st1 = mk_fstate (h ++ generate :: set_up ++ body_calls) paths /\
             unlinks_nothing set_up /\
             (body_calls = [] \/
              body_calls = fst (body (h ++ generate :: set_up)%list)) /\
             Forall (saved X env (h ++ [generate]) set_up) paths).
  { destruct (Hmid [] []) as (set_up & body_calls & paths & Hst & Hrest);
      [intros p []|constructor|].
    exists set_up, body_calls, paths. split; [|exact Hrest].
    rewrite <- Hst. cbn. now rewrite app_nil_r. }
  destruct (env h generate) as [generated|x] eqn:Hg.
  2:{ erewrite gbind_raises; [exact Hstop|].
      unfold gcall. cbn [history file_paths]. now rewrite Hg. }
  erewrite gbind_returns.
  2:{ unfold gcall. cbn [history file_paths]. now rewrite Hg. }
  fold st1.
  pose proof (dict_get_pure generated "NetworkManager" (JList []) st1) as Hd.
  destruct (@dict_get X generated "NetworkManager" (JList []) st1)
    as [st' [conns|e]] eqn:Hdg; cbn [fst] in Hd; subst st'.
  2:{ rewrite (gbind_raises _ _ _ _ _ Hdg). exact Hstop. }
  rewrite (gbind_returns _ _ _ _ _ Hdg).
  pose proof (lift_pure (iterate conns) st1) as Hl.
  destruct (@lift X _ (iterate conns) st1) as [st' [items|e]] eqn:Hit;
    cbn [fst] in Hl; subst st'.
  2:{ rewrite (gbind_raises _ _ _ _ _ Hit). exact Hstop. }
  rewrite (gbind_returns _ _ _ _ _ Hit).
  clear Hstop.
  destruct (record_loop items st1) as (calls & paths & Hst & Hnu & Hw).
  cbv zeta in Hst. cbn [file_paths app] in Hst.
  change (history st1) with (h ++ [generate])%list in Hw.
  match type of Hst with
  | fst ?loop = _ => destruct loop as [st2 [u|e]] eqn:Hloop
  end; cbn [fst] in Hst; subst st2.
  2:{ rewrite (gbind_raises _ _ _ _ _ Hloop). cbn [fst].
      exact (Hmid calls paths Hnu Hw). }
  rewrite (gbind_returns _ _ _ _ _ Hloop).
  destruct (reload_calls (mk_fstate (history st1 ++ calls) paths))
    as (more & Hst2 & Hnu2).
  cbn [history file_paths] in Hst2. rewrite <- app_assoc in Hst2.
  assert (Hnu' : unlinks_nothing (calls ++ more))
    by now apply unlinks_nothing_app.
  assert (Hw' : Forall (saved X env (h ++ [generate]) (calls ++ more)) paths)
    by (eapply Forall_impl; [|exact Hw]; intros p; apply saved_more).
  destruct (reload_nm_connection X env (mk_fstate (history st1 ++ calls) paths))
    as [st2 [u'|e]] eqn:Hre; cbn [fst] in Hst2; subst st2.
  2:{ rewrite (gbind_raises _ _ _ _ _ Hre). cbn [fst].
      exact (Hmid (calls ++ more)%list paths Hnu' Hw'). }
  rewrite (gbind_returns _ _ _ _ _ Hre).
  unfold run_body. cbn [fst history file_paths].
  exists (calls ++ more)%list.
  exists (fst (body (h ++ generate :: calls ++ more)%list)), paths.
  rewrite !Hcons. split; [|auto].
  rewrite <- app_assoc. cbn [app]. now rewrite <- app_assoc.
Qed.

(** The [finally] block calls nothing but [libnmstate.apply] with
    [verify_change=False], at most once, and after it [os.unlink] on
    recorded paths. *)
Lemma finally_calls (names : list json) (st : fstate) :
  exists fin,
    fst (gen_conf_apply_finally X is_Exception env Interface_KEY
           Interface_NAME Interface_STATE InterfaceState_ABSENT DNS_KEY
           DNS_CONFIG DNS_SERVER DNS_SEARCH names st)
    = mk_fstate (history st ++ fin) (file_paths st) /\
    (fin = [] \/
     exists absent k,
       fin = libnmstate_apply absent false
               :: map os_unlink (firstn k (file_paths st))).
Proof.
  unfold gen_conf_apply_finally.
  match goal with
  | |- context [gfold ?f ?s names] =>
      pose proof (gfold_pure f s names st append_absent_pure) as Hp;
      destruct (gfold f s names st) as [st' [absent|e]] eqn:Hf
  end; cbn [fst] in Hp; subst st'.
  2:{ rewrite (gbind_raises _ _ _ _ _ Hf). exists []. rewrite app_nil_r.
      split; [now destruct st|now left]. }
  rewrite (gbind_returns _ _ _ _ _ Hf).
  destruct (env (history st) (libnmstate_apply absent false)) as [v|x] eqn:Ha.
  2:{ erewrite gbind_raises; [|unfold gcall; now rewrite Ha].
      exists [libnmstate_apply absent false]. split; [reflexivity|].
      right. now exists absent, 0. }
  erewrite gbind_returns; [|unfold gcall; now rewrite Ha].
  erewrite gbind_returns; [|reflexivity].
  cbn [file_paths].
  match goal with
  | |- context [gfor ?l ?f ?s] =>
      destruct (unlink_loop_stops l s) as (k & Hst & _);
      cbv zeta in Hst; cbn [history file_paths] in Hst
  end.
  exists (libnmstate_apply absent false
            :: map os_unlink (firstn k (file_paths st))).
  split; [|right; now exists absent, k].
  rewrite Hst. now rewrite <- app_assoc.
Qed.

(** Either the fixture raises before it calls anything, or its calls are,
    in this order: generating the configurations; the set-up, which unlinks
    nothing; the calls of the code under [with], if the set-up got that
    far; and those of the [finally] block, which are at most one
    [libnmstate.apply] with [verify_change=False] followed by [os.unlink]
    on the first so many recorded paths.  Every recorded path is a file the
    set-up saved: [NM_CONN_FOLDER/name], opened for writing, written,
    closed, given mode [0o600] and handed to root by five consecutive
    calls that all returned.  So the fixture itself unlinks nothing but
    files it has saved. *)
Theorem fixture_unlinks_only_saved_files {A}
    (ds : json) (body : list env_call -> list env_call * goutcome X A)
    (st : fstate) :
  let generate := libnmstate_generate_configurations ds in
  let out :=
    gen_conf_apply X is_Exception env py_str Interface_KEY Interface_NAME
      Interface_STATE InterfaceState_ABSENT DNS_KEY DNS_CONFIG DNS_SERVER
      DNS_SEARCH ds body st in
  (exists e, out = (st, GRaise e)) \/
  (exists set_up body_calls fin,
      history (fst out)
      = (history st ++ generate :: set_up ++ body_calls ++ fin)%list /\
      unlinks_nothing set_up /\
      (body_calls = [] \/
       body_calls = fst (body (history st ++ generate :: set_up)%list)) /\
      Forall (saved X env (history st ++ [generate]) set_up)
        (file_paths (fst out)) /\
      (fin = [] \/
       exists absent k,
         fin = libnmstate_apply absent false
                 :: map os_unlink (firstn k (file_paths (fst out)))) /\
      (forall p, In (os_unlink p) fin ->
                 saved X env (history st ++ [generate]) set_up p)).
Proof.
  cbv zeta. unfold gen_conf_apply.
  pose proof (dict_get_pure ds Interface_KEY (JList []) st) as Hd.
  destruct (@dict_get X ds Interface_KEY (JList []) st)
    as [st' [ifaces|e]] eqn:Hdg; cbn [fst] in Hd; subst st'.
  2:{ rewrite (gbind_raises _ _ _ _ _ Hdg). left. now exists e. }
  rewrite (gbind_returns _ _ _ _ _ Hdg).
  pose proof (lift_pure (iterate ifaces) st) as Hl.
  destruct (@lift X _ (iterate ifaces) st) as [st' [items|e]] eqn:Hit;
    cbn [fst] in Hl; subst st'.
  2:{ rewrite (gbind_raises _ _ _ _ _ Hit). left. now exists e. }
  rewrite (gbind_returns _ _ _ _ _ Hit).
  match goal with
  | |- context [gmap ?f items] =>
      pose proof (gmap_pure f items st
                    (fun b st' => lift_pure (subscript b Interface_NAME) st'))
        as Hm;
      destruct (gmap f items st) as [st' [names|e]] eqn:Hgm
  end; cbn [fst] in Hm; subst st'.
  2:{ rewrite (gbind_raises _ _ _ _ _ Hgm). left. now exists e. }
  rewrite (gbind_returns _ _ _ _ _ Hgm).
  erewrite gbind_returns; [|reflexivity].
  right. rewrite gfinally_fst.
  destruct (try_block_shape ds body (history st))
    as (set_up & body_calls & Hst & Hnu & Hb & Hw).
  cbv zeta in Hst, Hw.
  set (t := gen_conf_apply_try X env py_str ds body
              (mk_fstate (history st) [])) in *.
  destruct (finally_calls names (fst t)) as (fin & Hfin & Hshape).
  rewrite Hfin. cbn [history file_paths].
  exists set_up, body_calls, fin.
  split.
  { rewrite Hst. cbn [history]. rewrite <- app_assoc. cbn [app].
    now rewrite <- app_assoc. }
  split; [exact Hnu|]. split; [exact Hb|]. split; [exact Hw|].
  split; [exact Hshape|].
  intros p Hin. destruct Hshape as [->|(absent & k & ->)]; [destruct Hin|].
  destruct Hin as [Hin|Hin]; [discriminate Hin|].
  apply in_map_iff in Hin. destruct Hin as (q & [= ->] & Hq).
  rewrite Forall_forall in Hw. apply Hw.
  rewrite <- (firstn_skipn k (file_paths (fst t))). apply in_or_app. now left.
Qed.

(** ** When every call succeeds *)






End FixtureFacts.

(** ** Worked examples of the fixture *)

Example sample_fixture_run :
  sample_fixture env_friendly (mk_fstate [] [])
  = (mk_fstate
       [libnmstate_generate_configurations sample_desire_state;
        open_w sample_path; fd_write sample_path "[connection]";
        fd_close sample_path; os_chmod sample_path 384;
        os_chown sample_path 0 0;
        exec_cmd ["nmcli"; "c"; "reload"] true; time_sleep 5;
        libnmstate_apply sample_absent_state false;
        os_unlink sample_path]
       [sample_path],
     GReturn tt).
Proof. reflexivity. Qed.

Lemma files_are_unlinked_after_absent_apply_witness :
  sample_fixture env_friendly (mk_fstate [] [])
  = (mk_fstate
       [libnmstate_generate_configurations sample_desire_state;
        open_w sample_path; fd_write sample_path "[connection]";
        fd_close sample_path; os_chmod sample_path 384;
        os_chown sample_path 0 0;
        exec_cmd ["nmcli"; "c"; "reload"] true; time_sleep 5;
        libnmstate_apply sample_absent_state false;
        os_unlink sample_path]
       [sample_path],
     GReturn tt).
Proof.
  refine (proj2
           (files_are_unlinked_after_absent_apply sample_exn sample_is_Exception
            env_friendly sample_py_str
            "interfaces" "name" "state" "absent"
            "dns-resolver" "config" "server" "search"
            sample_desire_state
            [JDict [("name", JStr "eth0"); ("state", JStr "up")]]
            [JStr "eth0"] sample_body (mk_fstate [] []) JNull
            _ eq_refl _ eq_refl)
           (fun _ _ _ _ => eq_refl)).
  - discriminate.
  - repeat constructor.
Defined.



(** A [KeyboardInterrupt] out of [os.unlink] is not passed over: the third
    file stays and the [with] statement ends with the interrupt. *)
Example sample_fixture_interrupted_unlink :
  let out :=
    gen_conf_apply sample_base_exn sample_base_is_Exception env_interrupted
      sample_py_str "interfaces" "name" "state" "absent"
      "dns-resolver" "config" "server" "search"
      sample_desire_state (fun _ => ([], GReturn tt)) (mk_fstate [] []) in
  file_paths (fst out)
  = [connection_path "a"; connection_path "b"; connection_path "c"] /\
  skipn 18 (history (fst out))
  = [libnmstate_apply sample_absent_state false;
     os_unlink (connection_path "a"); os_unlink (connection_path "b")] /\
  snd out = GRaise (Raised SampleKeyboardInterrupt).
Proof. repeat split. Qed.

Example sample_fixture_unnamed_interface :
  gen_conf_apply sample_exn sample_is_Exception env_friendly sample_py_str
    "interfaces" "name" "state" "absent"
    "dns-resolver" "config" "server" "search"
    (JDict [("interfaces", JList [JDict [("state", JStr "up")]])])
    sample_body (mk_fstate [] [])
  = (mk_fstate [] [], GRaise (Builtin (KeyError "name"))).
Proof. reflexivity. Qed.
